(** * Stellar account manager: transaction orchestration and bulk actions

    A shallow embedding of the route handlers under [app/api] (claim and
    reject a claimable balance, remove a trustline, send an asset, list
    claimable balances, load trustlines) and of the bulk loops of the
    React components, followed by the properties the specification
    states about them.

    Conventions of the embedding.
    - A JavaScript string is a [string]; one [ascii] stands for one code
      unit (the identifiers handled here are StrKey and asset codes).
    - A field that may be [undefined] is an [option]; JavaScript
      truthiness is written out ([truthy], [json_truthy]).
    - A thrown value is a [Thrown] record carrying what the handlers
      inspect: [instanceof Error], [message], and the HTTP response
      attached by the Horizon client.
    - Everything outside the repository (stellar-sdk, the Horizon
      service, [JSON.stringify]) is a field of [Env]; a handler is a
      function of [Env] and of the request, and returns the HTTP
      response together with the log of Horizon calls it issued. *)

From Stdlib Require Import ZArith Ascii String List Lia.
From stdpp Require Import base decidable option list strings pretty gmap.
Import ListNotations.

Local Open Scope string_scope.
Local Open Scope list_scope.
Set Warnings "-register-all".

(** ** JavaScript values *)

Module Js.

(** [!!s] for a string-or-undefined value. *)
Definition truthy (s : option string) : bool :=
  match s with
  | Some (String _ _) => true
  | _ => false
  end.

(** [a || d] where [d] is a string literal. *)
Definition or_else (a : option string) (d : string) : string :=
  match a with
  | Some (String c r) => String c r
  | _ => d
  end.

(** A value interpolated in a template literal. *)
Definition interpolate (a : option string) : string :=
  match a with
  | Some s => s
  | None => "undefined"
  end.

(** [s.startsWith(c)] for a one-character [c]. *)
Definition startsWith (c : ascii) (s : string) : bool :=
  match s with
  | String c' _ => Ascii.eqb c' c
  | EmptyString => false
  end.

(** [s.split(sep)] for a one-character separator. *)
Fixpoint split (sep : ascii) (s : string) : list string :=
  match s with
  | EmptyString => [EmptyString]
  | String c rest =>
      if Ascii.eqb c sep then EmptyString :: split sep rest
      else match split sep rest with
           | p :: ps => String c p :: ps
           | [] => [String c EmptyString]
           end
  end.

(** [s.includes(needle)]. *)
Fixpoint includes (needle s : string) : bool :=
  if String.prefix needle s then true
  else match s with
       | EmptyString => false
       | String _ rest => includes needle rest
       end.

(** A parsed JSON document. *)
Inductive Json :=
| JNull
| JBool (b : bool)
| JNumber (n : Z)
| JString (s : string)
| JArray (items : list Json)
| JObject (fields : list (string * Json)).

(** Truthiness of a JSON value that may be absent. *)
Definition json_truthy (j : option Json) : bool :=
  match j with
  | None | Some JNull => false
  | Some (JBool b) => b
  | Some (JNumber n) => negb (n =? 0)%Z
  | Some (JString s) => truthy (Some s)
  | Some (JArray _) | Some (JObject _) => true
  end.

(** The HTTP response the Horizon client attaches to a rejected call:
    [e.response.status], [e.response.data.title] and
    [e.response.data.extras.result_codes]. *)
Record HttpFailure := {
  http_status : option Z;
  data_title : option string;
  extras_result_codes : option Json;
}.

(** A thrown value. *)
Record Thrown := {
  instanceofError : bool;
  message : option string;
  response : option HttpFailure;
}.

(** [e.response?.data?.extras?.result_codes] *)
Definition result_codes_of (e : Thrown) : option Json :=
  match response e with
  | Some r => extras_result_codes r
  | None => None
  end.

(** [e instanceof Error ? e.message : fallback] *)
Definition message_or (e : Thrown) (fallback : string) : option string :=
  if instanceofError e then message e else Some fallback.

End Js.
Export Js.

(** ** stellar-sdk data *)

Inductive Asset :=
| Native
| Credit (code issuer : string).

(** The options object handed to an [Operation.*] constructor. *)
Inductive Operation :=
| changeTrust (asset : Asset) (limit : string)
| claimClaimableBalance (balanceId : string)
| payment (destination : option string) (asset : Asset) (amount : string).

Record Keypair := { publicKey : string }.

Record BalanceLine := {
  asset_type : string;
  asset_code : option string;
  asset_issuer : option string;
  balance : option string;
}.

Record AccountResponse := {
  account_id : string;
  sequence : string;
  balances : option (list BalanceLine);
}.

Record Claimant := { destination : string }.

Record ClaimableBalanceRecord := {
  cb_id : string;
  cb_amount : string;
  cb_asset : option string;
  cb_sponsor : option string;
  cb_claimants : option (list Claimant);
}.

(** What is given to [TransactionBuilder] before [build()]. *)
Record TxDraft := {
  source : AccountResponse;
  fee : string;
  networkPassphrase : option string;
  operations : list Operation;
  timeout : Z;
}.

Record SignedTransaction := {
  draft : TxDraft;
  signer : Keypair;
}.

Record ClaimablePage := {
  embedded_records : option (list ClaimableBalanceRecord);
  records : option (list ClaimableBalanceRecord);
}.

(** ** The environment of a handler *)

Record Env := {
  (* stellar-sdk constants *)
  BASE_FEE : string;
  Networks_PUBLIC : string;
  Networks_TESTNET : string;
  Networks_PUBLIC_NETWORK_PASSPHRASE : option string;
  Networks_TESTNET_NETWORK_PASSPHRASE : option string;
  (* stellar-sdk functions; [None] means no exception *)
  Keypair_fromSecret : string -> Thrown + Keypair;
  new_Asset : string -> string -> option Thrown;
  (* [new TransactionBuilder], the [Operation.*] constructors of the
     draft's operations, which check their arguments, [build()] and
     [sign(keypair)] *)
  build_and_sign : TxDraft -> Keypair -> option Thrown;
  (* the JavaScript engine: [JSON.stringify], and the TypeErrors raised
     by reading a property of [undefined] and by calling a value that is
     not a function *)
  JSON_stringify : Json -> string;
  TypeError_undefined : Thrown;
  TypeError_not_a_function : Thrown;
  (* Horizon, by server URL *)
  loadAccount : string -> string -> Thrown + AccountResponse;
  claimableBalance : string -> string -> Thrown + ClaimableBalanceRecord;
  claimableBalancesForClaimant : string -> string -> Z -> Thrown + ClaimablePage;
  submitTransaction : string -> SignedTransaction -> Thrown + string;
}.

(** A call issued to the Horizon service. *)
Inductive GatewayCall :=
| CallLoadAccount (server publicKey : string)
| CallClaimableBalance (server balanceId : string)
| CallClaimableBalances (server claimant : string) (limit : Z)
| CallSubmit (server : string) (tx : SignedTransaction).

(** ** HTTP responses of the handlers *)

Record Trustline := {
  assetCode : option string;
  assetIssuer : option string;
  tl_balance : option string;
}.

Record BalanceEntry := {
  be_id : string;
  be_amount : string;
  be_asset : string;
  be_assetIssuer : string;
  be_sponsor : string;
}.

Inductive Body :=
| BError (error : option string)
| BDone (message hash : string)
| BSent (transactionHash message : string)
| BTrustlines (trustlines : list Trustline)
| BBalances (balances : list BalanceEntry).

Record Response := {
  status : Z;
  body : Body;
}.

Definition json_error (msg : string) (code : Z) : Response :=
  {| status := code; body := BError (Some msg) |}.

(** ** Handlers: early return and a log of Horizon calls *)

Module Route.

Inductive Step (A : Type) :=
| Return (r : Response)
| Next (a : A).
Arguments Return {A} r.
Arguments Next {A} a.

Definition t (A : Type) : Type := list GatewayCall -> Step A * list GatewayCall.

Definition ret {A} (a : A) : t A := fun log => (Next a, log).

Definition bind {A B} (m : t A) (k : A -> t B) : t B :=
  fun log =>
    match m log with
    | (Return r, log') => (Return r, log')
    | (Next a, log') => k a log'
    end.

(** [return NextResponse.json(...)] *)
Definition respond {A} (r : Response) : t A := fun log => (Return r, log).

(** [if (cond) return r] *)
Definition return_if (cond : bool) (r : Response) : t unit :=
  if cond then respond r else ret tt.

(** [await] of a Horizon call: the call is logged, its outcome is
    whatever the service answered. *)
Definition await {A} (c : GatewayCall) (outcome : A) : t A :=
  fun log => (Next outcome, log ++ [c]).

Definition run (m : t Response) : Response * list GatewayCall :=
  match m [] with
  | (Return r, log) => (r, log)
  | (Next r, log) => (r, log)
  end.

End Route.

#[global] Instance route_ret : MRet Route.t := @Route.ret.
#[global] Instance route_bind : MBind Route.t := fun A B k m => Route.bind m k.

(** ** Pieces shared by the handlers *)

Inductive Network := public | testnet.

(** [network !== "public" && network !== "testnet"] fails exactly when
    this returns a value. *)
Definition known_network (network : string) : option Network :=
  if String.eqb network "public" then Some public
  else if String.eqb network "testnet" then Some testnet
  else None.

Definition SERVERS (n : Network) : string :=
  match n with
  | public => "https://horizon.stellar.org"
  | testnet => "https://horizon-testnet.stellar.org"
  end.

Definition NETWORKS (env : Env) (n : Network) : string :=
  match n with
  | public => Networks_PUBLIC env
  | testnet => Networks_TESTNET env
  end.

(** [!secretKey.startsWith('S') || secretKey.length !== 56] *)
Definition bad_secret_format (secretKey : string) : bool :=
  negb (startsWith "S" secretKey) || negb (String.length secretKey =? 56)%nat.

(** The validation block that follows the required-fields guard, the
    same text in the claim, reject, remove, list and load handlers:
    format pre-check, network check, [Keypair.fromSecret] in its own
    [try]. *)
Definition resolve_credential (env : Env) (secretKey network : string)
  : Route.t (Keypair * Network) :=
  Route.return_if (bad_secret_format secretKey)
    (json_error "Invalid secret key format" 400) ;;
  match known_network network with
  | None => Route.respond (json_error "Invalid network" 400)
  | Some net =>
      match Keypair_fromSecret env secretKey with
      | inl _ => Route.respond (json_error "Invalid secret key format" 400)
      | inr keypair => mret (keypair, net)
      end
  end.

(** [server.loadAccount(publicKey)] in its own [try]. *)
Definition load_account (env : Env) (server : string) (keypair : Keypair)
  : Route.t AccountResponse :=
  r ← Route.await (CallLoadAccount server (publicKey keypair))
        (loadAccount env server (publicKey keypair));
  match r with
  | inl e =>
      Route.respond
        {| status := 400;
           body := BError (Some ("Account error: "
                     +:+ interpolate (message_or e "Failed to load account"))) |}
  | inr account => Route.ret account
  end.

(** [server.claimableBalances().claimableBalance(balanceId).call()] in
    its own [try]. *)
Definition load_balance (env : Env) (server balanceId : string)
  : Route.t ClaimableBalanceRecord :=
  r ← Route.await (CallClaimableBalance server balanceId)
        (claimableBalance env server balanceId);
  match r with
  | inl e =>
      Route.respond
        {| status := 400;
           body := BError (Some ("Balance error: "
                     +:+ interpolate (message_or e "Failed to load balance"))) |}
  | inr record => Route.ret record
  end.

(** The outermost [catch] of a handler. *)
Definition outer_catch (e : Thrown) (fallback : string) : Response :=
  {| status := 500; body := BError (message_or e fallback) |}.

(** The two parts of a combined asset identifier: [Some (code, issuer)]
    when the string is truthy, is not ["native"] and splits on [":"]
    into exactly two parts. *)
Definition asset_parts (asset : option string) : option (string * string) :=
  match asset with
  | Some a =>
      if truthy (Some a) && negb (String.eqb a "native") then
        match split ":" a with
        | [code; issuer] => Some (code, issuer)
        | _ => None
        end
      else None
  | None => None
  end.

(** The asset parsing block of the claim and reject handlers: [asset]
    stays [null] unless the identifier has two parts, and only then is
    [new Asset] run. *)
Definition parse_asset (env : Env) (asset : option string) : Thrown + option Asset :=
  match asset_parts asset with
  | Some (code, issuer) =>
      match new_Asset env code issuer with
      | Some e => inl e
      | None => inr (Some (Credit code issuer))
      end
  | None => inr None
  end.

(** [asset || Asset.native()] *)
Definition or_native (asset : option Asset) : Asset :=
  match asset with
  | Some a => a
  | None => Native
  end.

Definition MAX_LIMIT : string := "922337203685.4775807".

(** The [catch] around build, sign and submit in the claim and reject
    handlers. *)
Definition submit_catch (env : Env) (e : Thrown) (fallback : string) : Response :=
  let errorMsg :=
    if instanceofError e then
      if json_truthy (result_codes_of e) then
        match result_codes_of e with
        | Some codes => Some ("Transaction failed: " +:+ JSON_stringify env codes)
        | None => message e
        end
      else message e
    else Some fallback in
  {| status := 400; body := BError errorMsg |}.

(** Build, sign, submit: [on_error] is the handler's [catch]. *)
Definition build_sign_submit (env : Env) (server : string) (keypair : Keypair)
    (d : TxDraft) (on_error : Thrown -> Response) (done : string)
  : Route.t Response :=
  match build_and_sign env d keypair with
  | Some e => Route.respond (on_error e)
  | None =>
      let tx := {| draft := d; signer := keypair |} in
      r ← Route.await (CallSubmit server tx) (submitTransaction env server tx);
      match r with
      | inl e => Route.respond (on_error e)
      | inr hash => Route.ret {| status := 200; body := BDone done hash |}
      end
  end.

(** ** POST /api/claimable/claim *)

Module Claim.

Record Request := {
  secretKey : option string;
  network : option string;
  balanceId : option string;
}.

(** The operations added to the builder, in order. *)
Definition plan (balanceId : string) (asset : option Asset) : list Operation :=
  (match asset with
   | Some a => [changeTrust a MAX_LIMIT]
   | None => []
   end)
  ++ [claimClaimableBalance balanceId].

(** From the loaded record to the operations: the asset is parsed
    (outside the inner [try]), then the builder is filled. *)
Definition compose (env : Env) (balanceId : string) (record : ClaimableBalanceRecord)
  : Thrown + list Operation :=
  match parse_asset env (cb_asset record) with
  | inl e => inl e
  | inr asset => inr (plan balanceId asset)
  end.

Definition handler (env : Env) (req : Request) : Route.t Response :=
  Route.return_if
    (negb (truthy (secretKey req)) || negb (truthy (network req))
     || negb (truthy (balanceId req)))
    (json_error "Missing required fields" 400) ;;
  let secret := interpolate (secretKey req) in
  let id := interpolate (balanceId req) in
  '(keypair, net) ← resolve_credential env secret (interpolate (network req));
  let server := SERVERS net in
  account ← load_account env server keypair;
  record ← load_balance env server id;
  match compose env id record with
  | inl e => Route.respond (outer_catch e "Failed to claim balance")
  | inr steps =>
      build_sign_submit env server keypair
        {| source := account;
           fee := BASE_FEE env;
           networkPassphrase := Some (NETWORKS env net);
           operations := steps;
           timeout := 180 |}
        (fun e => submit_catch env e "Failed to claim balance")
        "Balance claimed"
  end.

Definition POST (env : Env) (req : Request) : Response * list GatewayCall :=
  Route.run (handler env req).

End Claim.

(** ** POST /api/claimable/reject *)

Module Reject.

Record Request := {
  secretKey : option string;
  network : option string;
  balanceId : option string;
}.

(** The operations added to the builder, in order: the trustline when
    [asset] is set, then the three chained [addOperation] calls. *)
Definition plan (balanceId : string) (sponsor : option string) (amount : string)
    (asset : option Asset) : list Operation :=
  (match asset with
   | Some a => [changeTrust a MAX_LIMIT]
   | None => []
   end)
  ++ [claimClaimableBalance balanceId;
      payment sponsor (or_native asset) amount;
      changeTrust (or_native asset) "0"].

(** From the loaded record to the operations: sponsor and amount are
    read, the asset is parsed (outside the inner [try]), then the
    builder is filled. *)
Definition compose (env : Env) (balanceId : string) (record : ClaimableBalanceRecord)
  : Thrown + list Operation :=
  let sponsor := cb_sponsor record in
  let amount := cb_amount record in
  match parse_asset env (cb_asset record) with
  | inl e => inl e
  | inr asset => inr (plan balanceId sponsor amount asset)
  end.

Definition handler (env : Env) (req : Request) : Route.t Response :=
  Route.return_if
    (negb (truthy (secretKey req)) || negb (truthy (network req))
     || negb (truthy (balanceId req)))
    (json_error "Missing required fields" 400) ;;
  let secret := interpolate (secretKey req) in
  let id := interpolate (balanceId req) in
  '(keypair, net) ← resolve_credential env secret (interpolate (network req));
  let server := SERVERS net in
  account ← load_account env server keypair;
  record ← load_balance env server id;
  match compose env id record with
  | inl e => Route.respond (outer_catch e "Failed to reject balance")
  | inr steps =>
      build_sign_submit env server keypair
        {| source := account;
           fee := BASE_FEE env;
           networkPassphrase := Some (NETWORKS env net);
           operations := steps;
           timeout := 180 |}
        (fun e => submit_catch env e "Failed to reject balance")
        "Balance rejected"
  end.

Definition POST (env : Env) (req : Request) : Response * list GatewayCall :=
  Route.run (handler env req).

End Reject.

(** ** POST /api/trustlines/remove *)

Module Remove.

Record Request := {
  secretKey : option string;
  network : option string;
  assetCode : option string;
  assetIssuer : option string;
}.

(** [v === s] for a field that may be undefined. *)
Definition same (v : option string) (s : string) : bool :=
  match v with
  | Some x => String.eqb x s
  | None => false
  end.

(** [balances.find(b => b.asset_code === assetCode && b.asset_issuer === assetIssuer)] *)
Definition find_trustline (assetCode assetIssuer : string) (balances : list BalanceLine)
  : option BalanceLine :=
  List.find (fun b => same (asset_code b) assetCode && same (asset_issuer b) assetIssuer)
    balances.

(** The value of [trustlineBalance] after the [if] of line 70. *)
Definition trustlineBalance (trustline : option BalanceLine) : string :=
  match trustline with
  | Some t =>
      if truthy (balance t) && negb (same (balance t) "0")
      then interpolate (balance t)
      else "0"
  | None => "0"
  end.

(** The operations added to the builder, in order. *)
Definition plan (assetCode assetIssuer : string) (balances : list BalanceLine)
  : list Operation :=
  let asset := Credit assetCode assetIssuer in
  let held := trustlineBalance (find_trustline assetCode assetIssuer balances) in
  (if negb (String.eqb held "0")
   then [payment (Some assetIssuer) asset held]
   else [])
  ++ [changeTrust asset "0"].

Definition remove_catch (e : Thrown) : Response :=
  {| status := 400; body := BError (message_or e "Failed to remove trustline") |}.

Definition handler (env : Env) (req : Request) : Route.t Response :=
  Route.return_if
    (negb (truthy (secretKey req)) || negb (truthy (network req))
     || negb (truthy (assetCode req)) || negb (truthy (assetIssuer req)))
    (json_error "Missing required fields" 400) ;;
  let secret := interpolate (secretKey req) in
  let code := interpolate (assetCode req) in
  let issuer := interpolate (assetIssuer req) in
  '(keypair, net) ← resolve_credential env secret (interpolate (network req));
  let server := SERVERS net in
  account ← load_account env server keypair;
  match new_Asset env code issuer with
  | Some e => Route.respond (outer_catch e "Failed to remove trustline")
  | None =>
      match balances account with
      | None =>
          Route.respond (outer_catch (TypeError_undefined env) "Failed to remove trustline")
      | Some lines =>
          build_sign_submit env server keypair
            {| source := account;
               fee := BASE_FEE env;
               networkPassphrase := Some (NETWORKS env net);
               operations := plan code issuer lines;
               timeout := 180 |}
            remove_catch
            "Trustline removed"
      end
  end.

Definition POST (env : Env) (req : Request) : Response * list GatewayCall :=
  Route.run (handler env req).

End Remove.

(** ** POST /api/trustlines/send *)

Module Send.

Record Request := {
  secretKey : option string;
  network : option string;
  recipientAddress : option string;
  assetCode : option string;
  assetIssuer : option string;
  amount : option string;
}.

(** [v?.includes(needle)] *)
Definition message_includes (v : option string) (needle : string) : bool :=
  match v with
  | Some s => includes needle s
  | None => false
  end.

Definition http_status_is (e : Thrown) (code : Z) : bool :=
  match response e with
  | Some r => match http_status r with
              | Some c => (c =? code)%Z
              | None => false
              end
  | None => false
  end.

(** [error.response?.data?.title || error.message] *)
Definition title_or_message (e : Thrown) : option string :=
  match response e with
  | Some r => if truthy (data_title r) then data_title r else message e
  | None => message e
  end.

(** The single [catch] of the handler. *)
Definition send_catch (e : Thrown) : Response :=
  if message_includes (message e) "Invalid" then
    {| status := 400; body := BError (message e) |}
  else if http_status_is e 400 then
    {| status := 400; body := BError (title_or_message e) |}
  else if message_includes (message e) "Not Found" then
    {| status := 404; body := BError (Some "Recipient account not found") |}
  else
    {| status := 500; body := BError (Some "Failed to send asset") |}.

Definition server_url (network : option string) : string :=
  if Remove.same network "testnet"
  then "https://horizon-testnet.stellar.org"
  else "https://horizon.stellar.org".

(** [networkPassphrase], computed before the builder is made. *)
Definition passphrase (env : Env) (network : option string) : option string :=
  if Remove.same network "testnet"
  then Networks_TESTNET_NETWORK_PASSPHRASE env
  else Networks_PUBLIC_NETWORK_PASSPHRASE env.

(** The handler.  After the asset is made, the transaction chain starts
    with [new TransactionBuilder(sourceAccount, ...)] and the argument
    of [addOperation] is evaluated: [sourceAccount.operations.payment]
    is not a function of the account record Horizon returns (this
    handler does not import [Operation]), so that call raises a
    TypeError, which the handler's only [catch] classifies.  The rest of
    the chain, [setTimeout(30)], [build()], the signature, the
    submission and the success answer, is never reached. *)
Definition handler (env : Env) (req : Request) : Route.t Response :=
  Route.return_if
    (negb (truthy (secretKey req)) || negb (truthy (recipientAddress req))
     || negb (truthy (assetCode req)) || negb (truthy (amount req)))
    (json_error "Missing required parameters" 400) ;;
  let code := interpolate (assetCode req) in
  match Keypair_fromSecret env (interpolate (secretKey req)) with
  | inl e => Route.respond (send_catch e)
  | inr keypair =>
      let server := server_url (network req) in
      r ← Route.await (CallLoadAccount server (publicKey keypair))
            (loadAccount env server (publicKey keypair));
      match r with
      | inl e => Route.respond (send_catch e)
      | inr sourceAccount =>
          asset ←
            (if String.eqb code "XLM" then mret Native
             else if negb (truthy (assetIssuer req)) then
               Route.respond
                 (json_error "Asset issuer is required for non-native assets" 400)
             else match new_Asset env code (interpolate (assetIssuer req)) with
                  | Some e => Route.respond (send_catch e)
                  | None => mret (Credit code (interpolate (assetIssuer req)))
                  end);
          Route.respond (send_catch (TypeError_not_a_function env))
      end
  end.

Definition POST (env : Env) (req : Request) : Response * list GatewayCall :=
  Route.run (handler env req).

End Send.

(** ** POST /api/claimable/load (list claimable balances) *)

Module ListBalances.

Record Request := {
  secretKey : option string;
  network : option string;
}.

(** [record.claimants && record.claimants.some(c => c.destination === publicKey)] *)
Definition canClaim (record : ClaimableBalanceRecord) (publicKey : string) : bool :=
  match cb_claimants record with
  | Some cs => existsb (fun c => String.eqb (destination c) publicKey) cs
  | None => false
  end.

(** The callback of [records.map]: [None] is the [null] dropped by the
    filter that follows. *)
Definition entry (publicKey : string) (record : ClaimableBalanceRecord)
  : option BalanceEntry :=
  if negb (canClaim record publicKey) then None
  else
    let '(assetCode, assetIssuer) :=
      match asset_parts (cb_asset record) with
      | Some (code, issuer) => (code, issuer)
      | None => ("XLM", "native")
      end in
    Some {| be_id := cb_id record;
            be_amount := cb_amount record;
            be_asset := assetCode;
            be_assetIssuer := assetIssuer;
            be_sponsor := or_else (cb_sponsor record) "Unknown" |}.

(** [response._embedded?.records || response.records || []] *)
Definition records_of (page : ClaimablePage) : list ClaimableBalanceRecord :=
  match embedded_records page with
  | Some rs => rs
  | None => match records page with
            | Some rs => rs
            | None => []
            end
  end.

Definition handler (env : Env) (req : Request) : Route.t Response :=
  Route.return_if
    (negb (truthy (secretKey req)) || negb (truthy (network req)))
    (json_error "Missing required fields" 400) ;;
  '(keypair, net) ← resolve_credential env (interpolate (secretKey req))
                      (interpolate (network req));
  let server := SERVERS net in
  r ← Route.await (CallClaimableBalances server (publicKey keypair) 200)
        (claimableBalancesForClaimant env server (publicKey keypair) 200);
  match r with
  | inl e =>
      Route.respond
        {| status := 400;
           body := BError (Some ("Fetch error: "
                     +:+ interpolate (message_or e "Failed to fetch claimable balances"))) |}
  | inr page =>
      mret {| status := 200;
              body := BBalances (omap (entry (publicKey keypair)) (records_of page)) |}
  end.

Definition POST (env : Env) (req : Request) : Response * list GatewayCall :=
  Route.run (handler env req).

End ListBalances.

(** ** POST /api/trustlines/load *)

Module LoadTrustlines.

Record Request := {
  secretKey : option string;
  network : option string;
}.

Definition to_trustline (b : BalanceLine) : Trustline :=
  {| assetCode := asset_code b;
     assetIssuer := asset_issuer b;
     tl_balance := balance b |}.

Definition handler (env : Env) (req : Request) : Route.t Response :=
  Route.return_if
    (negb (truthy (secretKey req)) || negb (truthy (network req)))
    (json_error "Missing required fields" 400) ;;
  '(keypair, net) ← resolve_credential env (interpolate (secretKey req))
                      (interpolate (network req));
  account ← load_account env (SERVERS net) keypair;
  match balances account with
  | None => mret {| status := 200; body := BTrustlines [] |}
  | Some lines =>
      mret {| status := 200;
              body := BTrustlines
                (map to_trustline
                   (List.filter (fun b => negb (String.eqb (asset_type b) "native")) lines)) |}
  end.

Definition POST (env : Env) (req : Request) : Response * list GatewayCall :=
  Route.run (handler env req).

End LoadTrustlines.

(** ** The bulk loops of the components *)

Module Bulk.

(** What one [fetch] followed by [response.json()] gives the loop:
    an exception, or the [ok] flag and the parsed body ([None] when
    the body is [null], whose [error] cannot be read). *)
Inductive FetchOutcome :=
| Threw (e : Thrown)
| Answered (ok : bool) (data : option (option string)).

(** The two local variables of the loop. *)
Record Report := {
  successCount : nat;
  errors : list string;
}.

Definition empty_report : Report := {| successCount := 0; errors := [] |}.

Section Loop.

(** The items iterated over, the request sent for one item, and the
    text that prefixes its failure entry. *)
Context {Target Req : Type}.
Variable request_of : Target -> Req.
Variable descriptor : Target -> string.

(** The server: it answers a request and moves to a new state. *)
Context {Server : Type}.
Variable fetch : Server -> Req -> FetchOutcome * Server.
Variable type_error : Thrown.

Definition failure_entry (t : Target) (errorMsg : string) : string :=
  descriptor t +:+ ": " +:+ errorMsg.

(** [e instanceof Error ? e.message : "Network error"] in the inner [catch]. *)
Definition caught (t : Target) (e : Thrown) (r : Report) : Report :=
  {| successCount := successCount r;
     errors := errors r ++ [failure_entry t (interpolate (message_or e "Network error"))] |}.

(** The body of the [for] loop for one item. *)
Definition attempt (t : Target) (st : Server) (r : Report) : Report * Server :=
  match fetch st (request_of t) with
  | (Threw e, st') => (caught t e r, st')
  | (Answered true _, st') =>
      ({| successCount := S (successCount r); errors := errors r |}, st')
  | (Answered false (Some err), st') =>
      ({| successCount := successCount r;
          errors := errors r ++ [failure_entry t (or_else err "Unknown error")] |}, st')
  | (Answered false None, st') => (caught t type_error r, st')
  end.

(** The [for ... of] loop, with the requests it sent. *)
Fixpoint loop (targets : list Target) (st : Server) (r : Report) (sent : list Req)
  : Report * Server * list Req :=
  match targets with
  | [] => (r, st, sent)
  | t :: rest =>
      let '(r', st') := attempt t st r in
      loop rest st' r' (sent ++ [request_of t])
  end.

End Loop.

(** *** components/claimable-balances.tsx *)

Record Balance := {
  id : string;
  amount : string;
  asset : string;
  sponsor : option string;
}.

Inductive Mode := claim | reject.

Record ClaimableRequest := {
  url : string;
  body_secretKey : string;
  body_network : string;
  body_balanceId : string;
}.

Definition action_of (mode : Mode) : string :=
  match mode with
  | claim => "claim"
  | reject => "reject"
  end.

Definition balance_request (secretKey network : string) (mode : Mode) (b : Balance)
  : ClaimableRequest :=
  {| url := "/api/claimable/" +:+ action_of mode;
     body_secretKey := secretKey;
     body_network := network;
     body_balanceId := id b |}.

Definition balance_descriptor (b : Balance) : string :=
  amount b +:+ " " +:+ asset b.

(** [balances.filter((b) => selected.has(b.id))] *)
Definition selectedBalances (balances : list Balance) (selected : gset string)
  : list Balance :=
  List.filter (fun b => bool_decide (id b ∈ selected)) balances.

(** The message set after the loop; [None] leaves it as it was. *)
Definition summary (mode : Mode) (r : Report) : option string :=
  if (0 <? successCount r)%nat then
    Some ((match mode with claim => "Claimed" | reject => "Rejected" end)
          +:+ " " +:+ pretty (successCount r) +:+ " balance"
          +:+ (if (successCount r =? 1)%nat then "" else "s")
          +:+ (if (0 <? length (errors r))%nat
               then " (" +:+ pretty (length (errors r)) +:+ " failed)"
               else ""))
  else
    match errors r with
    | first :: _ => Some ("Failed to " +:+ action_of mode +:+ " balances: " +:+ first)
    | [] => None
    end.

Record BulkResult {Server : Type} := {
  report : Report;
  sent : list ClaimableRequest;
  successMessage : option string;
  selected_after : gset string;
  server_after : Server;
}.
Arguments BulkResult : clear implicits.

(** [handleBulkProcess], up to [setSelected(new Set())]; [None] is the
    early [return] on an empty selection.  The reload of the list that
    follows does not touch the two counters. *)
Definition handleBulkProcess {Server : Type}
    (fetch : Server -> ClaimableRequest -> FetchOutcome * Server)
    (type_error : Thrown)
    (secretKey network : string) (mode : Mode)
    (balances : list Balance) (selected : gset string) (st : Server)
  : option (BulkResult Server) :=
  if bool_decide (size selected = 0%nat) then None
  else
    let targets := selectedBalances balances selected in
    let '(r, st', reqs) :=
      loop (balance_request secretKey network mode) balance_descriptor
        fetch type_error targets st empty_report [] in
    Some {| report := r;
            sent := reqs;
            successMessage := summary mode r;
            selected_after := ∅;
            server_after := st' |}.

End Bulk.

(** ** The server behind the bulk loop *)

Module Backend.

(** [response.ok] *)
Definition ok (r : Response) : bool :=
  (200 <=? status r)%Z && (status r <=? 299)%Z.

(** [data.error] of the JSON body the handler produced. *)
Definition error_of (b : Body) : option string :=
  match b with
  | BError e => e
  | _ => None
  end.

(** The two claimable-balance routes as the component reaches them:
    the [n]-th request is served in the environment [world n], the
    state of the ledger at that time. *)
Definition serve (world : nat -> Env) (n : nat) (req : Bulk.ClaimableRequest)
  : Bulk.FetchOutcome * nat :=
  let r :=
    if String.eqb (Bulk.url req) "/api/claimable/claim" then
      fst (Claim.POST (world n)
             {| Claim.secretKey := Some (Bulk.body_secretKey req);
                Claim.network := Some (Bulk.body_network req);
                Claim.balanceId := Some (Bulk.body_balanceId req) |})
    else
      fst (Reject.POST (world n)
             {| Reject.secretKey := Some (Bulk.body_secretKey req);
                Reject.network := Some (Bulk.body_network req);
                Reject.balanceId := Some (Bulk.body_balanceId req) |}) in
  (Bulk.Answered (ok r) (Some (error_of (body r))), S n).

End Backend.

(** ** Reading amounts and identifiers *)

(** Does [c] occur in [s]? *)
Fixpoint has_char (c : ascii) (s : string) : bool :=
  match s with
  | EmptyString => false
  | String c' rest => Ascii.eqb c' c || has_char c rest
  end.

Definition digit_value (c : ascii) : option Z :=
  let n := Z.of_nat (nat_of_ascii c) in
  if (48 <=? n)%Z && (n <=? 57)%Z then Some (n - 48)%Z else None.

(** The number written by the digits of a decimal literal, the point
    left out: for a literal with seven decimals, its amount in stroops
    (the ledger counts in units of 1e-7). *)
Fixpoint digits_value (s : string) (acc : Z) : option Z :=
  match s with
  | EmptyString => Some acc
  | String c rest =>
      if Ascii.eqb c "." then digits_value rest acc
      else match digit_value c with
           | Some d => digits_value rest (10 * acc + d)%Z
           | None => None
           end
  end.

(** A decimal amount is nonzero when one of its digits is not [0]. *)
Fixpoint nonzero_amount (s : string) : bool :=
  match s with
  | EmptyString => false
  | String c rest =>
      match digit_value c with
      | Some d => (0 <? d)%Z || nonzero_amount rest
      | None => nonzero_amount rest
      end
  end.

(** A payment whose amount has no digit other than [0]: the SDK refuses
    to make such an operation. *)
Definition zero_payment (op : Operation) : bool :=
  match op with
  | payment _ _ amt => negb (nonzero_amount amt)
  | _ => false
  end.

(** ** A small world for the examples *)

Module Sample.

Definition holder_secret : string :=
  "SCZANGBA5YHTNYVVV4C3U252E2B6P6F5T3U6MM63WBSBZATAQI3EBTQ4".

Definition holder : Keypair := {| publicKey := "GHOLDER" |}.

(** The dummy key of the repository's test script cut to 56 characters:
    ['S'] followed by 55 ['A']. *)
Definition garbage_secret : string :=
  "SAAAAAAAAAAAAAAAAAAAAAAAAAAAAAAAAAAAAAAAAAAAAAAAAAAAAAAA".

Definition js_error (msg : string) : Thrown :=
  {| instanceofError := true; message := Some msg; response := None |}.

Definition quote : string := String (ascii_of_nat 34) EmptyString.

(** A printer for JSON values whose strings need no escaping. *)
Fixpoint stringify (j : Json) : string :=
  match j with
  | JNull => "null"
  | JBool true => "true"
  | JBool false => "false"
  | JNumber n => pretty n
  | JString s => quote +:+ s +:+ quote
  | JArray items => "[" +:+ String.concat "," (List.map stringify items) +:+ "]"
  | JObject fields =>
      "{" +:+ String.concat ","
                (List.map (fun kv => quote +:+ fst kv +:+ quote +:+ ":" +:+ stringify (snd kv))
                   fields)
      +:+ "}"
  end.

Definition result_codes : Json :=
  JObject [("transaction", JString "tx_failed");
           ("operations", JArray [JString "op_success"; JString "op_underfunded"])].

(** What the Horizon client throws when the ledger refuses a
    transaction. *)
Definition ledger_rejection : Thrown :=
  {| instanceofError := true;
     message := Some "Request failed with status code 400";
     response := Some {| http_status := Some 400%Z;
                         data_title := Some "Transaction Failed";
                         extras_result_codes := Some result_codes |} |}.

Definition holder_account : AccountResponse :=
  {| account_id := "GHOLDER";
     sequence := "42";
     balances :=
       Some [ {| asset_type := "credit_alphanum4"; asset_code := Some "USD";
                 asset_issuer := Some "GISSUER"; balance := Some "12.5000000" |};
              {| asset_type := "credit_alphanum4"; asset_code := Some "EUR";
                 asset_issuer := Some "GISSUER"; balance := Some "0.0000000" |};
              {| asset_type := "native"; asset_code := None;
                 asset_issuer := None; balance := Some "100.0000000" |} ] |}.

Definition pending (id amount : string) (asset : option string) : ClaimableBalanceRecord :=
  {| cb_id := id; cb_amount := amount; cb_asset := asset;
     cb_sponsor := Some "GSPONSOR";
     cb_claimants := Some [ {| destination := "GHOLDER" |} ] |}.

(** One account, five pending balances, an SDK that refuses to make a
    payment of zero, as [Operation.payment] does, and a ledger that
    answers every submission with [submit]. *)
Definition env (submit : SignedTransaction -> Thrown + string) : Env :=
  {| BASE_FEE := "100";
     Networks_PUBLIC := "Public Global Stellar Network ; September 2015";
     Networks_TESTNET := "Test SDF Network ; September 2015";
     Networks_PUBLIC_NETWORK_PASSPHRASE := None;
     Networks_TESTNET_NETWORK_PASSPHRASE := None;
     Keypair_fromSecret := fun s =>
       if String.eqb s holder_secret then inr holder
       else inl (js_error "invalid checksum");
     new_Asset := fun code issuer =>
       if String.eqb code "" then Some (js_error "Asset code is invalid") else None;
     build_and_sign := fun d _ =>
       if existsb zero_payment (operations d)
       then Some (js_error ("amount argument must be of type String, represent a "
                            +:+ "positive number and have at most 7 digits after the decimal"))
       else None;
     JSON_stringify := stringify;
     TypeError_undefined := js_error "Cannot read properties of undefined";
     TypeError_not_a_function :=
       js_error "sourceAccount.operations.payment is not a function";
     loadAccount := fun _ pk =>
       if String.eqb pk "GHOLDER" then inr holder_account
       else inl (js_error "Not Found");
     claimableBalance := fun _ id =>
       if String.eqb id "00aa" then inr (pending "00aa" "7.0000000" (Some "native"))
       else if String.eqb id "00bb" then inr (pending "00bb" "5.0000000" (Some "USD:GISSUER"))
       else if String.eqb id "00cc" then inr (pending "00cc" "1.0000000" (Some "USD"))
       else if String.eqb id "00dd" then inr (pending "00dd" "3.0000000" (Some "EUR:GISSUER"))
       else if String.eqb id "00ee" then inr (pending "00ee" "9.0000000" (Some "JPY:GISSUER"))
       else inl (js_error "Not Found");
     claimableBalancesForClaimant := fun _ _ _ =>
       inr {| embedded_records := None;
              records := Some [pending "00aa" "7.0000000" (Some "native");
                               pending "00bb" "5.0000000" (Some "USD:GISSUER");
                               pending "00cc" "1.0000000" (Some "USD");
                               pending "00dd" "3.0000000" (Some "EUR:GISSUER");
                               pending "00ee" "9.0000000" (Some "JPY:GISSUER")] |};
     submitTransaction := fun _ tx => submit tx |}.

Definition accepting : Env := env (fun _ => inr "7f3a").
Definition rejecting : Env := env (fun _ => inl ledger_rejection).

(** A ledger that refuses the second transaction it is sent. *)
Definition world (n : nat) : Env :=
  match n with
  | 1 => rejecting
  | _ => accepting
  end.

Definition listed : list Bulk.Balance :=
  [ {| Bulk.id := "00aa"; Bulk.amount := "7.0000000"; Bulk.asset := "XLM";
       Bulk.sponsor := Some "GSPONSOR" |};
    {| Bulk.id := "00bb"; Bulk.amount := "5.0000000"; Bulk.asset := "USD";
       Bulk.sponsor := Some "GSPONSOR" |};
    {| Bulk.id := "00cc"; Bulk.amount := "1.0000000"; Bulk.asset := "XLM";
       Bulk.sponsor := Some "GSPONSOR" |};
    {| Bulk.id := "00dd"; Bulk.amount := "3.0000000"; Bulk.asset := "EUR";
       Bulk.sponsor := Some "GSPONSOR" |};
    {| Bulk.id := "00ee"; Bulk.amount := "9.0000000"; Bulk.asset := "JPY";
       Bulk.sponsor := Some "GSPONSOR" |} ].

Definition remove_usd : Remove.Request :=
  {| Remove.secretKey := Some holder_secret; Remove.network := Some "public";
     Remove.assetCode := Some "USD"; Remove.assetIssuer := Some "GISSUER" |}.


Definition reject_usd : Reject.Request :=
  {| Reject.secretKey := Some holder_secret; Reject.network := Some "public";
     Reject.balanceId := Some "00bb" |}.

Definition claim_usd : Claim.Request :=
  {| Claim.secretKey := Some holder_secret; Claim.network := Some "public";
     Claim.balanceId := Some "00bb" |}.

Definition send_xlm : Send.Request :=
  {| Send.secretKey := Some holder_secret; Send.network := Some "testnet";
     Send.recipientAddress := Some "GDEST"; Send.assetCode := Some "XLM";
     Send.assetIssuer := None; Send.amount := Some "1" |}.

End Sample.

(** ** Reading a log *)

(** The Horizon calls of a log that submit a transaction. *)
Definition submissions (log : list GatewayCall) : list SignedTransaction :=
  omap (fun c => match c with CallSubmit _ tx => Some tx | _ => None end) log.

(** How many times [c] occurs in [s]. *)
Fixpoint count_char (c : ascii) (s : string) : nat :=
  match s with
  | EmptyString => 0
  | String c' rest => (if Ascii.eqb c' c then 1 else 0) + count_char c rest
  end.

(** The five handlers that run [resolve_credential], each on a request
    with the given credential and network and with its other fields
    filled in. *)
Definition prechecked_handlers (env : Env) (secret network id code issuer : string)
  : list (Response * list GatewayCall) :=
  [ Claim.POST env {| Claim.secretKey := Some secret;
                      Claim.network := Some network;
                      Claim.balanceId := Some id |};
    Reject.POST env {| Reject.secretKey := Some secret;
                       Reject.network := Some network;
                       Reject.balanceId := Some id |};
    Remove.POST env {| Remove.secretKey := Some secret;
                       Remove.network := Some network;
                       Remove.assetCode := Some code;
                       Remove.assetIssuer := Some issuer |};
    ListBalances.POST env {| ListBalances.secretKey := Some secret;
                             ListBalances.network := Some network |};
    LoadTrustlines.POST env {| LoadTrustlines.secretKey := Some secret;
                               LoadTrustlines.network := Some network |} ].

(** ** Further notions used in the statements *)

(** The transaction [tx], sent to [server], is the one a request with
    this secret and network asks for: the server and the passphrase are
    those of the network, the signer is the keypair of the secret, the
    source is the account Horizon returned for it, the fee is the base
    fee. *)
Definition bound_to_network (env : Env) (secret network server : string)
    (tx : SignedTransaction) : Prop :=
  exists net,
    known_network network = Some net
    /\ server = SERVERS net
    /\ Keypair_fromSecret env secret = inr (signer tx)
    /\ loadAccount env server (publicKey (signer tx)) = inr (source (draft tx))
    /\ networkPassphrase (draft tx) = Some (NETWORKS env net)
    /\ fee (draft tx) = BASE_FEE env.


(** The server a Horizon call is sent to. *)
Definition call_server (c : GatewayCall) : string :=
  match c with
  | CallLoadAccount s _ | CallClaimableBalance s _
  | CallClaimableBalances s _ _ | CallSubmit s _ => s
  end.


(** ** The rule of the bulk coordinator *)

(** The rule a bulk run follows, worded as the specification has it:
    every target is sent to the server once, in order; a success adds
    one to the success counter; a failure adds the entry
    "target-descriptor: error message" to the failure list; the run
    goes on whatever the outcome.  It is stated over the list of
    outcomes the server gives, not as a loop. *)
Module BulkRule.

Section Rule.

Context {Target Req Server : Type}.
Variable descriptor : Target -> string.
Variable fetch : Server -> Req -> Bulk.FetchOutcome * Server.
Variable type_error : Thrown.

(** The outcomes of the requests, each sent to the state the previous
    one left, and the state after the last. *)
Fixpoint answers (st : Server) (reqs : list Req) : list Bulk.FetchOutcome * Server :=
  match reqs with
  | [] => ([], st)
  | q :: rest =>
      let '(o, st1) := fetch st q in
      let '(os, st2) := answers st1 rest in
      (o :: os, st2)
  end.

(** A success is an answer whose [ok] flag is set. *)
Definition succeeded (o : Bulk.FetchOutcome) : bool :=
  match o with
  | Bulk.Answered true _ => true
  | _ => false
  end.

(** The error message of a failure: the [error] of the answer (else
    "Unknown error"), or the message of what was thrown (else "Network
    error"). *)
Definition error_message (o : Bulk.FetchOutcome) : string :=
  match o with
  | Bulk.Threw e => interpolate (message_or e "Network error")
  | Bulk.Answered _ (Some err) => or_else err "Unknown error"
  | Bulk.Answered _ None => interpolate (message_or type_error "Network error")
  end.

(** The failure entry of a target, if its outcome is a failure. *)
Definition failure (to : Target * Bulk.FetchOutcome) : option string :=
  if succeeded (snd to) then None
  else Some (descriptor (fst to) +:+ ": " +:+ error_message (snd to)).

(** The report: the number of successes, and the failure entries in the
    order of the targets. *)
Definition report (targets : list Target) (outcomes : list Bulk.FetchOutcome)
  : Bulk.Report :=
  {| Bulk.successCount := length (List.filter succeeded outcomes);
     Bulk.errors := omap failure (zip targets outcomes) |}.

End Rule.

End BulkRule.

(** ** Selection state of the list components *)

Module Selection.

(** [toggleSelect]: a copy of the set with [id] removed when present,
    added otherwise. *)
Definition toggleSelect (id : string) (selected : gset string) : gset string :=
  if bool_decide (id ∈ selected) then selected ∖ {[ id ]} else selected ∪ {[ id ]}.

(** [toggleSelectAll], for a list whose items are selected by [key]:
    [selected.size === items.length ? new Set() : new Set(items.map(key))]. *)
Definition toggleSelectAll {A : Type} (key : A -> string) (items : list A)
    (selected : gset string) : gset string :=
  if bool_decide (size selected = length items) then ∅
  else list_to_set (map key items).

End Selection.

(** ** hooks/use-claimable-balances and the reload of the component *)

Module Reload.

(** What the [fetch] of a list hook meets: an exception (from [fetch]
    or from [response.json()]), an answer that is not [ok] with the
    [error] field of its body, or an [ok] answer with the list. *)
Inductive Answer (A : Type) :=
| Threw (e : Thrown)
| Refused (error : option string)
| Loaded (items : list A).
Arguments Threw {A} e.
Arguments Refused {A} error.
Arguments Loaded {A} items.

(** The three state cells of a list hook. *)
Record Hook (A : Type) := {
  items : list A;
  loading : bool;
  error : option string;
}.
Arguments items {A} h.
Arguments loading {A} h.
Arguments error {A} h.

(** [loadBalances] of [useClaimableBalances]: the new state and the
    returned value ([None] for [null]). *)
Definition loadBalances {A : Type} (answer : Answer A) (h : Hook A)
  : Hook A * option (list A) :=
  match answer with
  | Loaded l => ({| items := l; loading := false; error := Some "" |}, Some l)
  | Refused err =>
      ({| items := []; loading := false;
          error := Some (or_else err "Failed to load claimable balances") |}, None)
  | Threw e =>
      ({| items := []; loading := false;
          error := message_or e "Failed to load balances" |}, None)
  end.

(** [loadTrustlines] of [useLoadTrustlines]: an answer that is not [ok]
    is reported with a fixed text, its body is not read. *)
Definition loadTrustlines {A : Type} (answer : Answer A) (h : Hook A)
  : Hook A * option (list A) :=
  match answer with
  | Loaded l => ({| items := l; loading := false; error := Some "" |}, Some l)
  | Refused _ =>
      ({| items := []; loading := false;
          error := Some "Failed to load trustlines" |}, None)
  | Threw e =>
      ({| items := []; loading := false;
          error := message_or e "Failed to load trustlines" |}, None)
  end.

(** The state of [ClaimableBalances] that a reload touches. *)
Record Ui := {
  hook : Hook Bulk.Balance;
  successMessage : string;
  selected : gset string;
}.

(** [handleLoad] of components/claimable-balances.tsx: the message and
    the selection change only when the hook returned a list. *)
Definition handleLoad (answer : Answer Bulk.Balance) (ui : Ui) : Ui :=
  let '(h, result) := loadBalances answer (hook ui) in
  match result with
  | Some l =>
      {| hook := h;
         successMessage := "Loaded " +:+ pretty (length l) +:+ " claimable balances";
         selected := ∅ |}
  | None =>
      {| hook := h;
         successMessage := successMessage ui;
         selected := selected ui |}
  end.

(** The end of [handleBulkProcess] in components/claimable-balances.tsx:
    after the loop its message is set (when there is one), the
    selection is reset, and the list is reloaded with [handleLoad]. *)
Definition handleBulkProcess_then_reload {Server : Type}
    (fetch : Server -> Bulk.ClaimableRequest -> Bulk.FetchOutcome * Server)
    (type_error : Thrown) (secretKey network : string) (mode : Bulk.Mode)
    (answer : Answer Bulk.Balance) (ui : Ui) (st : Server)
  : Ui * option (Bulk.BulkResult Server) :=
  match Bulk.handleBulkProcess fetch type_error secretKey network mode
          (items (hook ui)) (selected ui) st with
  | None => (ui, None)
  | Some res =>
      (handleLoad answer
         {| hook := hook ui;
            successMessage := default (successMessage ui) (Bulk.successMessage res);
            selected := Bulk.selected_after res |},
       Some res)
  end.

End Reload.

(** ** components/claimable-balances-unified.tsx: one action per balance *)

Module Unified.

(** [balanceActions.get(balance.id) || "claim"] *)
Definition action_for (balanceActions : gmap string Bulk.Mode) (b : Bulk.Balance)
  : Bulk.Mode :=
  default Bulk.claim (balanceActions !! Bulk.id b).

Definition request_of (secretKey network : string) (balanceActions : gmap string Bulk.Mode)
    (b : Bulk.Balance) : Bulk.ClaimableRequest :=
  Bulk.balance_request secretKey network (action_for balanceActions b) b.

Definition descriptor (balanceActions : gmap string Bulk.Mode) (b : Bulk.Balance) : string :=
  Bulk.amount b +:+ " " +:+ Bulk.asset b
  +:+ " (" +:+ Bulk.action_of (action_for balanceActions b) +:+ ")".

Definition newline : string := String (ascii_of_nat 10) EmptyString.

(** The success message after the loop (it was reset to [""] before). *)
Definition success_text (r : Bulk.Report) : string :=
  if (0 <? Bulk.successCount r)%nat then
    "Processed " +:+ pretty (Bulk.successCount r) +:+ " balance"
    +:+ (if (Bulk.successCount r =? 1)%nat then "" else "s")
    +:+ (if (0 <? length (Bulk.errors r))%nat
         then " (" +:+ pretty (length (Bulk.errors r)) +:+ " failed)"
         else "")
  else "".

(** The error message after the loop (it was reset to [""] before). *)
Definition error_text (r : Bulk.Report) : string :=
  if (0 <? length (Bulk.errors r))%nat then
    "Failed to process " +:+ pretty (length (Bulk.errors r)) +:+ " balance"
    +:+ (if (length (Bulk.errors r) =? 1)%nat then "" else "s")
    +:+ ":" +:+ newline +:+ String.concat newline (Bulk.errors r)
  else "".

Record Result {Server : Type} := {
  report : Bulk.Report;
  sent : list Bulk.ClaimableRequest;
  successMessage : string;
  errorMessage : string;
  selected_after : gset string;
  actions_after : gmap string Bulk.Mode;
  server_after : Server;
}.
Arguments Result : clear implicits.

(** [handleBulkProcess] of the unified component, up to the reset of
    the selection and of the chosen actions; [None] is the early
    [return] on an empty selection. *)
Definition handleBulkProcess {Server : Type}
    (fetch : Server -> Bulk.ClaimableRequest -> Bulk.FetchOutcome * Server)
    (type_error : Thrown)
    (secretKey network : string)
    (balances : list Bulk.Balance) (selected : gset string)
    (balanceActions : gmap string Bulk.Mode) (st : Server)
  : option (Result Server) :=
  if bool_decide (size selected = 0%nat) then None
  else
    let targets := Bulk.selectedBalances balances selected in
    let '(r, st', reqs) :=
      Bulk.loop (request_of secretKey network balanceActions) (descriptor balanceActions)
        fetch type_error targets st Bulk.empty_report [] in
    Some {| report := r;
            sent := reqs;
            successMessage := success_text r;
            errorMessage := error_text r;
            selected_after := ∅;
            actions_after := ∅;
            server_after := st' |}.

End Unified.

(** ** components/trustline-manager.tsx *)

Module Manager.

(** A trustline as the hook holds it. *)
Record Line := {
  assetCode : string;
  assetIssuer : string;
  balance : string;
}.

(** The selection key of a trustline: [`${assetCode}:${assetIssuer}`]. *)
Definition key (t : Line) : string := assetCode t +:+ ":" +:+ assetIssuer t.

Record RemoveRequest := {
  body_secretKey : string;
  body_network : string;
  body_assetCode : string;
  body_assetIssuer : string;
}.

Definition request_of (secretKey network : string) (t : Line) : RemoveRequest :=
  {| body_secretKey := secretKey;
     body_network := network;
     body_assetCode := assetCode t;
     body_assetIssuer := assetIssuer t |}.

(** [trustlines.filter((t) => selected.has(key(t)))] *)
Definition selectedTrustlines (trustlines : list Line) (selected : gset string) : list Line :=
  List.filter (fun t => bool_decide (key t ∈ selected)) trustlines.

Definition success_text (r : Bulk.Report) : string :=
  if (0 <? Bulk.successCount r)%nat then
    "Removed " +:+ pretty (Bulk.successCount r) +:+ " trustline"
    +:+ (if (Bulk.successCount r =? 1)%nat then "" else "s")
    +:+ (if (0 <? length (Bulk.errors r))%nat
         then " (" +:+ pretty (length (Bulk.errors r)) +:+ " failed)"
         else "")
  else "".

Definition error_text (r : Bulk.Report) : string :=
  if (0 <? length (Bulk.errors r))%nat then
    "Failed to remove " +:+ pretty (length (Bulk.errors r)) +:+ " trustline"
    +:+ (if (length (Bulk.errors r) =? 1)%nat then "" else "s")
    +:+ ":" +:+ Unified.newline +:+ String.concat Unified.newline (Bulk.errors r)
  else "".

Record Result {Server : Type} := {
  report : Bulk.Report;
  sent : list RemoveRequest;
  successMessage : string;
  errorMessage : string;
  selected_after : gset string;
  server_after : Server;
}.
Arguments Result : clear implicits.


End Manager.

(** ** app/page.tsx: connecting an account *)

Module Page.

(** White space below code unit 256, as [String.prototype.trim] sees
    it: tab, line feed, vertical tab, form feed, carriage return, space
    and no-break space. *)
Definition is_white_space (c : ascii) : bool :=
  let n := nat_of_ascii c in
  ((9 <=? n) && (n <=? 13))%nat || (n =? 32)%nat || (n =? 160)%nat.

(** [!secretKey.trim()] *)
Fixpoint is_blank (s : string) : bool :=
  match s with
  | EmptyString => true
  | String c rest => is_white_space c && is_blank rest
  end.

Record Auth := {
  isAuthenticated : bool;
  loading : bool;
  error : string;
}.

(** [handleAuthenticate] *)
Definition handleAuthenticate (secretKey : string) (st : Auth) : Auth :=
  if is_blank secretKey then
    {| isAuthenticated := isAuthenticated st;
       loading := loading st;
       error := "Please enter your secret key" |}
  else if bad_secret_format secretKey then
    {| isAuthenticated := false; loading := false; error := "Invalid secret key format" |}
  else
    {| isAuthenticated := true; loading := false; error := "" |}.

End Page.

(** ** components/send-asset.tsx: the asset picker *)

Module SendForm.

(** [balance.balance] of a line of the account. *)
Definition line_balance (b : BalanceLine) : option string := balance b.

Record Asset := {
  code : option string;
  issuer : option string;
  balance : option string;
}.

(** The callback of [account.balances.forEach] in [fetchAssets]. *)
Definition asset_of_line (b : BalanceLine) : Asset :=
  if String.eqb (asset_type b) "native" then
    {| code := Some "XLM"; issuer := None; balance := line_balance b |}
  else
    {| code := asset_code b; issuer := asset_issuer b; balance := line_balance b |}.

(** The list and the selection [fetchAssets] sets from a loaded account:
    every line becomes an option, the first one is selected. *)
Definition fetchAssets (lines : list BalanceLine) (selectedAsset : string)
  : list Asset * string :=
  let assetsList := map asset_of_line lines in
  (assetsList,
   match assetsList with
   | first :: _ => interpolate (code first) +:+ ":" +:+ or_else (issuer first) "native"
   | [] => selectedAsset
   end).

(** The value of an entry of the picker: [`${a.code}:${a.issuer || "native"}`]. *)
Definition option_key (a : Asset) : string :=
  interpolate (code a) +:+ ":" +:+ or_else (issuer a) "native".

(** [getSelectedAssetDetails]: the first two parts of the selection
    name the code and the issuer looked for. *)
Definition getSelectedAssetDetails (assets : list Asset) (selectedAsset : string)
  : option Asset :=
  match split ":" selectedAsset with
  | code' :: issuer' :: _ =>
      List.find (fun a => Remove.same (code a) code'
                          && String.eqb (or_else (issuer a) "native") issuer')
        assets
  | _ => None
  end.

End SendForm.

(** ** More worlds for the examples *)

Module Scenarios.

(** The sample world with a Horizon that cannot load any account. *)
Definition horizon_down : Env :=
  {| BASE_FEE := BASE_FEE Sample.accepting;
     Networks_PUBLIC := Networks_PUBLIC Sample.accepting;
     Networks_TESTNET := Networks_TESTNET Sample.accepting;
     Networks_PUBLIC_NETWORK_PASSPHRASE := None;
     Networks_TESTNET_NETWORK_PASSPHRASE := None;
     Keypair_fromSecret := Keypair_fromSecret Sample.accepting;
     new_Asset := new_Asset Sample.accepting;
     build_and_sign := build_and_sign Sample.accepting;
     JSON_stringify := JSON_stringify Sample.accepting;
     TypeError_undefined := TypeError_undefined Sample.accepting;
     TypeError_not_a_function := TypeError_not_a_function Sample.accepting;
     loadAccount := fun _ _ => inl (Sample.js_error "Network Error");
     claimableBalance := claimableBalance Sample.accepting;
     claimableBalancesForClaimant := claimableBalancesForClaimant Sample.accepting;
     submitTransaction := submitTransaction Sample.accepting |}.

Definition claim_unknown : Claim.Request :=
  {| Claim.secretKey := Some Sample.holder_secret; Claim.network := Some "public";
     Claim.balanceId := Some "ffff" |}.

Definition list_mine : ListBalances.Request :=
  {| ListBalances.secretKey := Some Sample.holder_secret;
     ListBalances.network := Some "public" |}.

Definition load_mine : LoadTrustlines.Request :=
  {| LoadTrustlines.secretKey := Some Sample.holder_secret;
     LoadTrustlines.network := Some "public" |}.

(** A request to send a credit asset that happens to be named XLM. *)
Definition send_fake_xlm : Send.Request :=
  {| Send.secretKey := Some Sample.holder_secret; Send.network := Some "mainnet";
     Send.recipientAddress := Some "GDEST"; Send.assetCode := Some "XLM";
     Send.assetIssuer := Some "GISSUER"; Send.amount := Some "1" |}.

Definition lines : list Manager.Line :=
  [ {| Manager.assetCode := "USD"; Manager.assetIssuer := "GISSUER";
       Manager.balance := "12.5000000" |};
    {| Manager.assetCode := "EUR"; Manager.assetIssuer := "GISSUER";
       Manager.balance := "0.0000000" |} ].


End Scenarios.

(** ** Proof automation for handlers *)

(** Unfolding of a handler down to the log-passing functions. *)
Ltac route_unfold :=
  unfold Claim.POST, Claim.handler, Reject.POST, Reject.handler,
    Remove.POST, Remove.handler, Send.POST, Send.handler,
    ListBalances.POST, ListBalances.handler,
    LoadTrustlines.POST, LoadTrustlines.handler,
    resolve_credential, load_account, load_balance, build_sign_submit,
    Route.run, mbind, route_bind, mret, route_ret, Route.bind,
    Route.return_if, Route.respond, Route.ret, Route.await in *.

(** Case analysis on the innermost undecided test of a handler. *)
Ltac route_step :=
  match goal with
  | |- context [match ?x with _ => _ end] =>
      lazymatch x with
      | context [match _ with _ => _ end] => fail
      | _ => destruct x eqn:?
      end
  end.

Ltac route_cases := route_unfold; repeat (cbn in *; route_step); cbn in *.

Ltac only_submission :=
  let tx := fresh "tx" in
  let Hin := fresh "Hin" in
  intros tx Hin; cbn in Hin;
  repeat (destruct Hin as [<-|Hin]; [cbn; eauto|]); try contradiction.


(** Reading a hypothesis that a call is in a computed log. *)
Ltac in_log Hin :=
  repeat (destruct Hin as [Hin|Hin]; [try discriminate; simplify_eq|]);
  try contradiction.


(** * Properties *)

(** ** Splitting an asset identifier *)

Section Split.

Variable sep : ascii.

Lemma split_not_nil (s : string) : split sep s <> [].
Proof.
  induction s as [|c rest IH]; simpl; [discriminate|].
  destruct (Ascii.eqb c sep); [discriminate|].
  destruct (split sep rest); discriminate.
Qed.

(** A string without the separator is its own single part. *)
Lemma split_without_sep (s : string) :
  has_char sep s = false -> split sep s = [s].
Proof.
  induction s as [|c rest IH]; simpl; [reflexivity|].
  intros H. apply orb_false_iff in H as [Hc Hrest].
  rewrite Hc, (IH Hrest). reflexivity.
Qed.

(** One separator between two strings that have none: two parts. *)
Lemma split_pair (a b : string) :
  has_char sep a = false -> has_char sep b = false ->
  split sep (a +:+ String sep b) = [a; b].
Proof.
  intros Ha Hb. induction a as [|c rest IH]; simpl in *.
  - rewrite Ascii.eqb_refl, (split_without_sep b Hb). reflexivity.
  - apply orb_false_iff in Ha as [Hc Hrest].
    rewrite Hc, (IH Hrest). reflexivity.
Qed.

(** The number of parts is one more than the number of separators. *)
Lemma split_length (s : string) : length (split sep s) = S (count_char sep s).
Proof.
  induction s as [|c rest IH]; simpl; [reflexivity|].
  destruct (Ascii.eqb c sep); simpl; [now rewrite IH|].
  destruct (split sep rest) eqn:E; simpl in *; [discriminate|]. exact IH.
Qed.

End Split.

Lemma append_colon_not_native (code issuer : string) :
  has_char ":" code = false -> String.eqb (code +:+ ":" +:+ issuer) "native" = false.
Proof.
  intros H. apply String.eqb_neq. intros E.
  assert (Hc : has_char ":" (code +:+ ":" +:+ issuer) = true).
  { clear. induction code as [|c rest IH]; simpl; [reflexivity|].
    rewrite IH. apply orb_true_r. }
  rewrite E in Hc. discriminate.
Qed.

(** A well-formed [CODE:ISSUER] identifier is read as its two parts. *)
Lemma asset_parts_pair (code issuer : string) :
  has_char ":" code = false -> has_char ":" issuer = false ->
  asset_parts (Some (code +:+ ":" +:+ issuer)) = Some (code, issuer).
Proof.
  intros Hc Hi. unfold asset_parts.
  rewrite (append_colon_not_native code issuer Hc).
  replace (truthy (Some (code +:+ ":" +:+ issuer))) with true
    by (destruct code; reflexivity).
  simpl. change (":" +:+ issuer) with (String ":" issuer).
  rewrite (split_pair ":" code issuer Hc Hi). reflexivity.
Qed.


Lemma asset_parts_native : asset_parts (Some "native") = None.
Proof. reflexivity. Qed.

(** ** Claim Balance: the operation plan *)

Lemma MAX_LIMIT_is_int64_max : digits_value MAX_LIMIT 0 = Some (2 ^ 63 - 1)%Z.
Proof. reflexivity. Qed.



(** ** Malformed asset identifiers *)



(** ** Reject Balance: the operation plan *)

(** On a [CODE:ISSUER] asset the plan has the four steps, in order. *)
Lemma reject_plan_credit (env : Env) (id : string) (record : ClaimableBalanceRecord)
    (code issuer : string) :
  has_char ":" code = false -> has_char ":" issuer = false ->
  cb_asset record = Some (code +:+ ":" +:+ issuer) ->
  new_Asset env code issuer = None ->
  Reject.compose env id record
  = inr [changeTrust (Credit code issuer) MAX_LIMIT;
         claimClaimableBalance id;
         payment (cb_sponsor record) (Credit code issuer) (cb_amount record);
         changeTrust (Credit code issuer) "0"].
Proof.
  intros Hc Hi Hasset Hsdk. unfold Reject.compose, parse_asset.
  rewrite Hasset, (asset_parts_pair code issuer Hc Hi), Hsdk. reflexivity.
Qed.

(** On the native asset the closing trust change is added all the same:
    three steps, the last one a zero-limit trust change on the native
    asset. *)
Lemma reject_plan_native (env : Env) (id : string) (record : ClaimableBalanceRecord) :
  cb_asset record = Some "native" ->
  Reject.compose env id record
  = inr [claimClaimableBalance id;
         payment (cb_sponsor record) Native (cb_amount record);
         changeTrust Native "0"].
Proof.
  intros Hasset. unfold Reject.compose, parse_asset.
  rewrite Hasset, asset_parts_native. reflexivity.
Qed.

(** C1. The handler run on the native balance ["00aa"], whatever the
    ledger answers: the one transaction it submits carries three
    operations, not the two of the specification. *)
Theorem reject_native_submits_three_steps (submit : SignedTransaction -> Thrown + string) :
  map (fun tx => operations (draft tx))
    (submissions
       (snd (Reject.POST (Sample.env submit)
               {| Reject.secretKey := Some Sample.holder_secret;
                  Reject.network := Some "testnet";
                  Reject.balanceId := Some "00aa" |})))
  = [[claimClaimableBalance "00aa";
      payment (Some "GSPONSOR") Native "7.0000000";
      changeTrust Native "0"]].
Proof.
  unfold Reject.POST, Reject.handler, Route.run, build_sign_submit.
  unfold mbind, route_bind, Route.bind, Route.await. simpl.
  destruct (submit _); reflexivity.
Qed.

(** ** Remove Trustline: the operation plan *)

Lemma nonzero_amount_not_zero (s : string) :
  nonzero_amount s = true -> s <> "" /\ s <> "0".
Proof.
  intros H. split; intros ->; discriminate.
Qed.

(** The line found is a line of the snapshot for the requested asset. *)
Lemma find_trustline_matches (code issuer : string) (lines : list BalanceLine)
    (line : BalanceLine) :
  Remove.find_trustline code issuer lines = Some line ->
  In line lines /\ asset_code line = Some code /\ asset_issuer line = Some issuer.
Proof.
  unfold Remove.find_trustline. intros H.
  apply find_some in H as [Hin Hm]. split; [exact Hin|].
  apply andb_true_iff in Hm as [H1 H2]. unfold Remove.same in *.
  destruct (asset_code line) as [x|]; [|discriminate].
  destruct (asset_issuer line) as [y|]; [|discriminate].
  apply String.eqb_eq in H1, H2. now subst.
Qed.

(** When the asset has at most one line, as on the ledger, that line is
    the one found. *)
Lemma find_trustline_unique (code issuer : string) (lines : list BalanceLine)
    (line : BalanceLine) :
  In line lines ->
  asset_code line = Some code -> asset_issuer line = Some issuer ->
  (forall other, In other lines ->
     asset_code other = Some code -> asset_issuer other = Some issuer -> other = line) ->
  Remove.find_trustline code issuer lines = Some line.
Proof.
  intros Hin Hc Hi Huniq. unfold Remove.find_trustline.
  destruct (find _ lines) as [found|] eqn:E.
  - pose proof (find_trustline_matches code issuer lines found E) as (Hin' & Hc' & Hi').
    f_equal. now apply Huniq.
  - exfalso. apply (find_none _ _ E) in Hin. unfold Remove.same in Hin.
    rewrite Hc, Hi, !String.eqb_refl in Hin. discriminate.
Qed.

(** The decision of the handler: a payment is planned exactly for a
    balance string that is neither empty nor ["0"]. *)
Lemma remove_plan_of_line (code issuer : string) (lines : list BalanceLine)
    (line : BalanceLine) (held : string) :
  Remove.find_trustline code issuer lines = Some line ->
  balance line = Some held ->
  held <> "" -> held <> "0" ->
  Remove.plan code issuer lines
  = [payment (Some issuer) (Credit code issuer) held;
     changeTrust (Credit code issuer) "0"].
Proof.
  intros Hfind Hbal Hne H0. unfold Remove.plan, Remove.trustlineBalance.
  rewrite Hfind, Hbal.
  destruct held as [|c r]; [congruence|].
  apply String.eqb_neq in H0. unfold Remove.same, truthy, interpolate.
  rewrite H0. cbn [negb andb]. rewrite H0. reflexivity.
Qed.

(** C2. When the snapshot contains a matching balance line with a
    nonzero amount (the line the handler finds; the only line of that
    asset, as on the ledger), the plan is the payment of that full
    amount to the issuer followed by the zero-limit trust change, two
    separate steps in that order; when the snapshot has no matching
    line, the plan is the zero-limit trust change alone. *)
Theorem remove_plan_pays_issuer_then_revokes
    (code issuer : string) (lines : list BalanceLine) :
  (forall line held,
     Remove.find_trustline code issuer lines = Some line ->
     balance line = Some held ->
     nonzero_amount held = true ->
     Remove.plan code issuer lines
     = [payment (Some issuer) (Credit code issuer) held;
        changeTrust (Credit code issuer) "0"])
  /\ (forall line held,
        In line lines ->
        asset_code line = Some code -> asset_issuer line = Some issuer ->
        (forall other, In other lines ->
           asset_code other = Some code -> asset_issuer other = Some issuer ->
           other = line) ->
        balance line = Some held ->
        nonzero_amount held = true ->
        Remove.plan code issuer lines
        = [payment (Some issuer) (Credit code issuer) held;
           changeTrust (Credit code issuer) "0"])
  /\ ((forall line, In line lines ->
         asset_code line = Some code -> asset_issuer line = Some issuer -> False) ->
      Remove.plan code issuer lines = [changeTrust (Credit code issuer) "0"]).
Proof.
  repeat split.
  - intros line held Hfind Hbal Hnz.
    destruct (nonzero_amount_not_zero held Hnz).
    now apply (remove_plan_of_line code issuer lines line held).
  - intros line held Hin Hc Hi Huniq Hbal Hnz.
    destruct (nonzero_amount_not_zero held Hnz).
    apply (remove_plan_of_line code issuer lines line held); try assumption.
    now apply find_trustline_unique.
  - intros Hnone. unfold Remove.plan.
    destruct (Remove.find_trustline code issuer lines) as [line|] eqn:E.
    + destruct (find_trustline_matches code issuer lines line E) as (Hin & Hc & Hi).
      destruct (Hnone line Hin Hc Hi).
    + reflexivity.
Qed.

Lemma remove_plan_pays_issuer_then_revokes_witness :
  Remove.plan "USD" "GISSUER" (default [] (balances Sample.holder_account))
  = [payment (Some "GISSUER") (Credit "USD" "GISSUER") "12.5000000";
     changeTrust (Credit "USD" "GISSUER") "0"]
  /\ Remove.plan "JPY" "GISSUER" (default [] (balances Sample.holder_account))
     = [changeTrust (Credit "JPY" "GISSUER") "0"].
Proof.
  split.
  - apply (proj1 (remove_plan_pays_issuer_then_revokes "USD" "GISSUER"
                    (default [] (balances Sample.holder_account)))
             {| asset_type := "credit_alphanum4"; asset_code := Some "USD";
                asset_issuer := Some "GISSUER"; balance := Some "12.5000000" |});
      reflexivity.
  - apply (proj2 (proj2 (remove_plan_pays_issuer_then_revokes "JPY" "GISSUER"
                           (default [] (balances Sample.holder_account))))).
    intros line Hin Hc Hi. cbn in Hin.
    repeat (destruct Hin as [<-|Hin]; [discriminate|]). exact Hin.
Defined.

(** ** Handlers: credential validation *)

Lemma truthy_nonempty (s : string) : s <> "" -> truthy (Some s) = true.
Proof. destruct s; [congruence | reflexivity]. Qed.

Lemma bad_secret_format_iff (secret : string) :
  bad_secret_format secret = true
  <-> startsWith "S" secret = false \/ String.length secret <> 56.
Proof.
  unfold bad_secret_format. rewrite orb_true_iff, !negb_true_iff, Nat.eqb_neq.
  reflexivity.
Qed.

(** The validation block answers 400 without touching the log when the
    format pre-check fails. *)
Lemma resolve_credential_bad_format (env : Env) (secret network : string)
    (log : list GatewayCall) :
  bad_secret_format secret = true ->
  resolve_credential env secret network log
  = (Route.Return (json_error "Invalid secret key format" 400), log).
Proof. intros H. route_unfold. rewrite H. reflexivity. Qed.

(** It answers the same when the pre-check passes, the network is known
    and [Keypair.fromSecret] throws. *)
Lemma resolve_credential_sdk_rejects (env : Env) (secret network : string)
    (net : Network) (e : Thrown) (log : list GatewayCall) :
  known_network network = Some net ->
  Keypair_fromSecret env secret = inl e ->
  resolve_credential env secret network log
  = (Route.Return (json_error "Invalid secret key format" 400), log).
Proof.
  intros Hnet Hsdk. route_unfold. rewrite Hnet, Hsdk.
  destruct (bad_secret_format secret); reflexivity.
Qed.

Lemma prechecked_handlers_stop (env : Env) (secret network id code issuer : string) :
  secret <> "" -> network <> "" -> id <> "" -> code <> "" -> issuer <> "" ->
  (forall log, resolve_credential env secret network log
               = (Route.Return (json_error "Invalid secret key format" 400), log)) ->
  Forall (fun r => r = (json_error "Invalid secret key format" 400, []))
    (prechecked_handlers env secret network id code issuer).
Proof.
  intros Hs Hn Hi Hc Hiss Hstop.
  unfold prechecked_handlers.
  repeat constructor;
    unfold Claim.POST, Claim.handler, Reject.POST, Reject.handler,
      Remove.POST, Remove.handler, ListBalances.POST, ListBalances.handler,
      LoadTrustlines.POST, LoadTrustlines.handler,
      Route.run, mbind, route_bind, Route.bind, Route.return_if; cbn [
      Claim.secretKey Claim.network Claim.balanceId
      Reject.secretKey Reject.network Reject.balanceId
      Remove.secretKey Remove.network Remove.assetCode Remove.assetIssuer
      ListBalances.secretKey ListBalances.network
      LoadTrustlines.secretKey LoadTrustlines.network];
    rewrite ?truthy_nonempty by assumption; cbn [negb orb Route.ret];
    cbn [interpolate]; rewrite Hstop; reflexivity.
Qed.

(** C4, as stated, fails on the empty secret: its length is wrong, and
    the claim handler classifies the request as a missing field. *)
Lemma empty_secret_is_a_missing_field :
  ~ (forall env secret network id,
       startsWith "S" secret = false \/ String.length secret <> 56 ->
       Claim.POST env {| Claim.secretKey := Some secret;
                         Claim.network := Some network;
                         Claim.balanceId := Some id |}
       = (json_error "Invalid secret key format" 400, [])).
Proof.
  intros H.
  specialize (H Sample.accepting "" "testnet" "00aa" (or_introl eq_refl)).
  discriminate H.
Qed.

(** C4, amended. In a request whose required fields are all present, a
    non-empty secret with the wrong leading character or the wrong
    length makes each of the five handlers that run the format pre-check
    (claim, reject, remove trustline, list balances, load trustlines)
    answer 400 "Invalid secret key format" with no Horizon call.  A
    secret that passes the pre-check, as ['S'] followed by 55 ['A']
    does, gets the same answer, again with no Horizon call, when the
    network is known and key derivation rejects it. *)
Theorem malformed_secret_stops_before_horizon (env : Env) (id code issuer : string) :
  id <> "" -> code <> "" -> issuer <> "" ->
  (forall secret network,
     secret <> "" -> network <> "" ->
     startsWith "S" secret = false \/ String.length secret <> 56 ->
     Forall (fun r => r = (json_error "Invalid secret key format" 400, []))
       (prechecked_handlers env secret network id code issuer))
  /\ (forall secret network net e,
        secret <> "" -> known_network network = Some net ->
        Keypair_fromSecret env secret = inl e ->
        Forall (fun r => r = (json_error "Invalid secret key format" 400, []))
          (prechecked_handlers env secret network id code issuer))
  /\ bad_secret_format Sample.garbage_secret = false.
Proof.
  intros Hi Hc Hiss. split; [|split].
  - intros secret network Hs Hn Hbad.
    apply prechecked_handlers_stop; try assumption.
    intros log. apply resolve_credential_bad_format.
    now apply bad_secret_format_iff.
  - intros secret network net e Hs Hnet Hsdk.
    apply prechecked_handlers_stop; try assumption.
    + intros ->. discriminate.
    + intros log. now apply (resolve_credential_sdk_rejects env secret network net e).
  - reflexivity.
Qed.

Lemma malformed_secret_stops_before_horizon_witness :
  Forall (fun r => r = (json_error "Invalid secret key format" 400, []))
    (prechecked_handlers Sample.accepting "GHOLDER" "testnet" "00bb" "USD" "GISSUER")
  /\ Forall (fun r => r = (json_error "Invalid secret key format" 400, []))
       (prechecked_handlers Sample.accepting Sample.garbage_secret "testnet"
          "00bb" "USD" "GISSUER").
Proof.
  pose proof (malformed_secret_stops_before_horizon Sample.accepting "00bb" "USD" "GISSUER")
    as H.
  destruct H as (Hformat & Hsdk & _); try discriminate.
  split.
  - apply Hformat; [discriminate | discriminate | left; reflexivity].
  - apply (Hsdk Sample.garbage_secret "testnet" testnet (Sample.js_error "invalid checksum"));
      [discriminate | reflexivity | reflexivity].
Defined.

(** The send handler has no format pre-check: a malformed secret goes to
    [Keypair.fromSecret], and what it throws is classified by the
    handler's only [catch]. *)
Lemma send_classifies_by_thrown_message (env : Env) (req : Send.Request) (e : Thrown) :
  truthy (Send.secretKey req) = true ->
  truthy (Send.recipientAddress req) = true ->
  truthy (Send.assetCode req) = true ->
  truthy (Send.amount req) = true ->
  Keypair_fromSecret env (interpolate (Send.secretKey req)) = inl e ->
  Send.POST env req = (Send.send_catch e, []).
Proof.
  intros H1 H2 H3 H4 Hsdk. route_unfold. rewrite H1, H2, H3, H4, Hsdk. reflexivity.
Qed.

Example send_malformed_secret :
  Send.POST Sample.accepting
    {| Send.secretKey := Some "GHOLDER"; Send.network := Some "testnet";
       Send.recipientAddress := Some "GDEST"; Send.assetCode := Some "XLM";
       Send.assetIssuer := None; Send.amount := Some "1" |}
  = ({| status := 500; body := BError (Some "Failed to send asset") |}, []).
Proof. reflexivity. Qed.

(** ** Handlers: what is submitted *)

(** *** The plan inside the submitted transaction *)

Lemma claim_submits_composed_plan (env : Env) (req : Claim.Request) (tx : SignedTransaction) :
  In tx (submissions (snd (Claim.POST env req))) ->
  exists server record,
    claimableBalance env server (interpolate (Claim.balanceId req)) = inr record
    /\ Claim.compose env (interpolate (Claim.balanceId req)) record
       = inr (operations (draft tx)).
Proof. revert tx. route_cases; only_submission. Qed.

Lemma reject_submits_composed_plan (env : Env) (req : Reject.Request) (tx : SignedTransaction) :
  In tx (submissions (snd (Reject.POST env req))) ->
  exists server record,
    claimableBalance env server (interpolate (Reject.balanceId req)) = inr record
    /\ Reject.compose env (interpolate (Reject.balanceId req)) record
       = inr (operations (draft tx)).
Proof. revert tx. route_cases; only_submission. Qed.

Lemma remove_submits_plan (env : Env) (req : Remove.Request) (tx : SignedTransaction) :
  In tx (submissions (snd (Remove.POST env req))) ->
  exists lines,
    balances (source (draft tx)) = Some lines
    /\ operations (draft tx)
       = Remove.plan (interpolate (Remove.assetCode req))
           (interpolate (Remove.assetIssuer req)) lines.
Proof. revert tx. route_cases; only_submission. Qed.

(** *** Remove Trustline: from the balance string to the submission *)





(** *** Validity window and single submission *)

Lemma claim_window (env : Env) (req : Claim.Request) :
  length (submissions (snd (Claim.POST env req))) <= 1
  /\ forall tx, In tx (submissions (snd (Claim.POST env req))) -> timeout (draft tx) = 180%Z.
Proof. route_cases; (split; [lia | only_submission]). Qed.

Lemma reject_window (env : Env) (req : Reject.Request) :
  length (submissions (snd (Reject.POST env req))) <= 1
  /\ forall tx, In tx (submissions (snd (Reject.POST env req))) -> timeout (draft tx) = 180%Z.
Proof. route_cases; (split; [lia | only_submission]). Qed.

Lemma remove_window (env : Env) (req : Remove.Request) :
  length (submissions (snd (Remove.POST env req))) <= 1
  /\ forall tx, In tx (submissions (snd (Remove.POST env req))) -> timeout (draft tx) = 180%Z.
Proof. route_cases; (split; [lia | only_submission]). Qed.

(** Send Payment ends in its [catch] before a transaction is built: it
    submits nothing. *)
Lemma send_submits_nothing (env : Env) (req : Send.Request) :
  submissions (snd (Send.POST env req)) = [].
Proof. route_cases; reflexivity. Qed.

(** C7. Every transaction submitted for Remove Trustline, Claim Balance,
    Reject Balance or Send Payment carries a validity window of 180,
    and a handler submits at most one transaction per request, so a
    refused transaction is never sent again.  For Send Payment this
    holds because the handler builds and submits no transaction at
    all: its [setTimeout(30)] is never reached. *)
Theorem submitted_transactions_are_time_bounded (env : Env) :
  (forall req tx, In tx (submissions (snd (Remove.POST env req))) ->
                  timeout (draft tx) = 180%Z)
  /\ (forall req tx, In tx (submissions (snd (Claim.POST env req))) ->
                     timeout (draft tx) = 180%Z)
  /\ (forall req tx, In tx (submissions (snd (Reject.POST env req))) ->
                     timeout (draft tx) = 180%Z)
  /\ (forall req tx, In tx (submissions (snd (Send.POST env req))) ->
                     timeout (draft tx) = 180%Z)
  /\ (forall req, length (submissions (snd (Remove.POST env req))) <= 1)
  /\ (forall req, length (submissions (snd (Claim.POST env req))) <= 1)
  /\ (forall req, length (submissions (snd (Reject.POST env req))) <= 1)
  /\ (forall req, submissions (snd (Send.POST env req)) = []).
Proof.
  repeat split; intros req.
  - apply remove_window.
  - apply claim_window.
  - apply reject_window.
  - rewrite send_submits_nothing. intros tx [].
  - apply remove_window.
  - apply claim_window.
  - apply reject_window.
  - apply send_submits_nothing.
Qed.

Lemma submitted_transactions_are_time_bounded_witness :
  (exists tx, submissions (snd (Remove.POST Sample.accepting Sample.remove_usd)) = [tx]
              /\ timeout (draft tx) = 180%Z)
  /\ (exists tx, submissions (snd (Reject.POST Sample.rejecting Sample.reject_usd)) = [tx]
                 /\ timeout (draft tx) = 180%Z)
  /\ submissions (snd (Send.POST Sample.accepting Sample.send_xlm)) = [].
Proof.
  pose proof (submitted_transactions_are_time_bounded Sample.accepting)
    as (Hremove & _ & _ & _ & _ & _ & _ & Hsend).
  pose proof (submitted_transactions_are_time_bounded Sample.rejecting)
    as (_ & _ & Hreject & _).
  split; [|split].
  - eexists. split; [reflexivity|].
    apply (Hremove Sample.remove_usd). left. reflexivity.
  - eexists. split; [reflexivity|].
    apply (Hreject Sample.reject_usd). left. reflexivity.
  - apply (Hsend Sample.send_xlm).
Defined.

(** ** Handlers: ledger rejections *)

(** The [catch] of claim and reject puts the serialised result codes in
    the error message. *)
Lemma submit_catch_keeps_result_codes (env : Env) (e : Thrown) (codes : Json)
    (fallback : string) :
  instanceofError e = true ->
  result_codes_of e = Some codes ->
  json_truthy (Some codes) = true ->
  submit_catch env e fallback
  = {| status := 400;
       body := BError (Some ("Transaction failed: " +:+ JSON_stringify env codes)) |}.
Proof.
  intros Herr Hcodes Htruthy. unfold submit_catch.
  rewrite Herr, Hcodes, Htruthy. reflexivity.
Qed.

(** The [catch] of remove trustline never looks at the response
    attached to the thrown value. *)
Lemma remove_catch_ignores_response (e : Thrown) :
  Remove.remove_catch e
  = Remove.remove_catch {| instanceofError := instanceofError e;
                           message := message e;
                           response := None |}.
Proof. reflexivity. Qed.

(** Neither does the [catch] of send use the result codes. *)
Lemma send_catch_ignores_result_codes (e : Thrown) (r : HttpFailure) :
  response e = Some r ->
  Send.send_catch e
  = Send.send_catch {| instanceofError := instanceofError e;
                       message := message e;
                       response := Some {| http_status := http_status r;
                                           data_title := data_title r;
                                           extras_result_codes := None |} |}.
Proof.
  intros Hr. unfold Send.send_catch, Send.http_status_is, Send.title_or_message.
  cbn. rewrite Hr. reflexivity.
Qed.

(** C8. A ledger that refuses the transaction with structured result
    codes: Reject Balance and Claim Balance return them in the failure
    payload, Remove Trustline returns a message without them, and Send
    Payment fails before it submits anything to the ledger. *)
Theorem ledger_rejection_payloads :
  fst (Reject.POST Sample.rejecting Sample.reject_usd)
  = {| status := 400;
       body := BError (Some ("Transaction failed: "
                               +:+ Sample.stringify Sample.result_codes)) |}
  /\ fst (Claim.POST Sample.rejecting Sample.claim_usd)
     = {| status := 400;
          body := BError (Some ("Transaction failed: "
                                  +:+ Sample.stringify Sample.result_codes)) |}
  /\ fst (Remove.POST Sample.rejecting Sample.remove_usd)
     = {| status := 400;
          body := BError (Some "Request failed with status code 400") |}
  /\ Send.POST Sample.rejecting Sample.send_xlm
     = ({| status := 500; body := BError (Some "Failed to send asset") |},
        [CallLoadAccount "https://horizon-testnet.stellar.org" "GHOLDER"]).
Proof. repeat split. Qed.

(** A submission that Horizon refuses ends the handler in its [catch]. *)
Lemma remove_rejection_payload (env : Env) (req : Remove.Request)
    (server : string) (tx : SignedTransaction) (e : Thrown) :
  In (CallSubmit server tx) (snd (Remove.POST env req)) ->
  submitTransaction env server tx = inl e ->
  fst (Remove.POST env req) = Remove.remove_catch e.
Proof.
  route_cases; intros Hin Hsub;
    repeat (destruct Hin as [Hin|Hin]; [try discriminate; simplify_eq|]);
    try contradiction; congruence.
Qed.

Lemma reject_rejection_payload (env : Env) (req : Reject.Request)
    (server : string) (tx : SignedTransaction) (e : Thrown) :
  In (CallSubmit server tx) (snd (Reject.POST env req)) ->
  submitTransaction env server tx = inl e ->
  fst (Reject.POST env req) = submit_catch env e "Failed to reject balance".
Proof.
  route_cases; intros Hin Hsub;
    repeat (destruct Hin as [Hin|Hin]; [try discriminate; simplify_eq|]);
    try contradiction; congruence.
Qed.

Lemma claim_rejection_payload (env : Env) (req : Claim.Request)
    (server : string) (tx : SignedTransaction) (e : Thrown) :
  In (CallSubmit server tx) (snd (Claim.POST env req)) ->
  submitTransaction env server tx = inl e ->
  fst (Claim.POST env req) = submit_catch env e "Failed to claim balance".
Proof.
  route_cases; intros Hin Hsub;
    repeat (destruct Hin as [Hin|Hin]; [try discriminate; simplify_eq|]);
    try contradiction; congruence.
Qed.

(** ** The bulk loop *)

Section BulkLoop.

Context {Target Req Server : Type}.
Variable request_of : Target -> Req.
Variable descriptor : Target -> string.
Variable fetch : Server -> Req -> Bulk.FetchOutcome * Server.
Variable type_error : Thrown.

(** One item is either one more success or one more failure entry,
    prefixed by the item's descriptor. *)
Lemma attempt_outcome (t : Target) (st : Server) (r : Bulk.Report) :
  let '(r', st') := Bulk.attempt request_of descriptor fetch type_error t st r in
  st' = snd (fetch st (request_of t))
  /\ ((exists data, fst (fetch st (request_of t)) = Bulk.Answered true data
                    /\ r' = {| Bulk.successCount := S (Bulk.successCount r);
                               Bulk.errors := Bulk.errors r |})
      \/ ((forall data, fst (fetch st (request_of t)) <> Bulk.Answered true data)
          /\ exists msg,
               r' = {| Bulk.successCount := Bulk.successCount r;
                       Bulk.errors := Bulk.errors r
                                      ++ [descriptor t +:+ ": " +:+ msg] |})).
Proof.
  unfold Bulk.attempt, Bulk.caught, Bulk.failure_entry.
  destruct (fetch st (request_of t)) as [[e|[|] [err|]] st']; cbn;
    (split; [reflexivity|]); eauto;
    right; (split; [intros data; discriminate|]); eauto.
Qed.

Lemma attempt_counts (t : Target) (st : Server) (r : Bulk.Report) :
  let r' := fst (Bulk.attempt request_of descriptor fetch type_error t st r) in
  Bulk.successCount r' + length (Bulk.errors r')
  = S (Bulk.successCount r + length (Bulk.errors r)).
Proof.
  pose proof (attempt_outcome t st r) as H. cbn zeta.
  destruct (Bulk.attempt request_of descriptor fetch type_error t st r) as [r' st'].
  destruct H as [_ [(data & _ & ->) | (_ & msg & ->)]]; cbn.
  - reflexivity.
  - rewrite length_app. cbn. lia.
Qed.

(** The loop goes through every item: counts add up and one request is
    sent per item, in order. *)
Lemma loop_accounts (targets : list Target) :
  forall st r sent,
    let '(r', _, sent') :=
      Bulk.loop request_of descriptor fetch type_error targets st r sent in
    Bulk.successCount r' + length (Bulk.errors r')
    = Bulk.successCount r + length (Bulk.errors r) + length targets
    /\ sent' = sent ++ map request_of targets.
Proof.
  induction targets as [|t rest IH]; intros st r sent; cbn.
  - split; [lia | now rewrite app_nil_r].
  - pose proof (attempt_counts t st r) as Hone.
    destruct (Bulk.attempt request_of descriptor fetch type_error t st r) as [r1 st1].
    cbn in Hone.
    specialize (IH st1 r1 (sent ++ [request_of t])).
    destruct (Bulk.loop request_of descriptor fetch type_error rest st1 r1
                (sent ++ [request_of t])) as [[r' st'] sent'].
    destruct IH as [Hcount ->]. split; [lia | now rewrite <- app_assoc].
Qed.

(** The loop computes the report of the rule: the outcomes are those
    of the requests of the targets, sent in order, each to the state
    the previous one left. *)
Lemma loop_follows_rule (targets : list Target) :
  forall st r sent,
    Bulk.loop request_of descriptor fetch type_error targets st r sent
    = ({| Bulk.successCount :=
            Bulk.successCount r
            + length (List.filter BulkRule.succeeded
                        (fst (BulkRule.answers fetch st (map request_of targets))));
          Bulk.errors :=
            Bulk.errors r
            ++ omap (BulkRule.failure descriptor type_error)
                 (zip targets
                    (fst (BulkRule.answers fetch st (map request_of targets)))) |},
       snd (BulkRule.answers fetch st (map request_of targets)),
       sent ++ map request_of targets).
Proof.
  induction targets as [|t rest IH]; intros st r sent; cbn.
  - rewrite Nat.add_0_r, !app_nil_r. destruct r; reflexivity.
  - unfold Bulk.attempt, Bulk.caught, Bulk.failure_entry.
    destruct (fetch st (request_of t)) as [[e|[|] [err|]] st1]; rewrite IH;
      destruct (BulkRule.answers fetch st1 (map request_of rest)) as [os st2];
      cbn; rewrite <- ?app_assoc; cbn; repeat f_equal; lia.
Qed.

End BulkLoop.

(** With nothing selected the handler returns at once: no request, no
    counters. *)
Lemma empty_selection_returns_early {Server : Type}
    (fetch : Server -> Bulk.ClaimableRequest -> Bulk.FetchOutcome * Server)
    (type_error : Thrown) (secretKey network : string) (mode : Bulk.Mode)
    (balances : list Bulk.Balance) (st : Server) :
  Bulk.handleBulkProcess fetch type_error secretKey network mode balances ∅ st = None.
Proof. reflexivity. Qed.

(** C3. For every batch, of any number N of targets, the report of
    [handleBulkProcess] satisfies successCount + length errors = N, N
    being the number of targets attempted; when N = 0 the report is the
    trivial one, with successCount = 0 and no failure message. *)
Theorem bulk_report_accounts_for_every_target {Server : Type}
    (fetch : Server -> Bulk.ClaimableRequest -> Bulk.FetchOutcome * Server)
    (type_error : Thrown) (secretKey network : string) (mode : Bulk.Mode)
    (balances : list Bulk.Balance) (selected : gset string) (st : Server) :
  size selected <> 0 ->
  exists res,
    Bulk.handleBulkProcess fetch type_error secretKey network mode balances selected st
    = Some res
    /\ Bulk.successCount (Bulk.report res) + length (Bulk.errors (Bulk.report res))
       = length (Bulk.selectedBalances balances selected)
    /\ length (Bulk.sent res) = length (Bulk.selectedBalances balances selected)
    /\ (Bulk.selectedBalances balances selected = [] ->
        Bulk.report res = {| Bulk.successCount := 0; Bulk.errors := [] |}).
Proof.
  intros Hsel. unfold Bulk.handleBulkProcess.
  rewrite bool_decide_eq_false_2 by exact Hsel.
  pose proof (loop_accounts (Bulk.balance_request secretKey network mode)
                Bulk.balance_descriptor fetch type_error
                (Bulk.selectedBalances balances selected) st Bulk.empty_report [])
    as Hloop.
  destruct (Bulk.loop _ _ _ _ (Bulk.selectedBalances balances selected) st _ _)
    as [[r st'] reqs] eqn:E.
  destruct Hloop as [Hcount Hsent]. cbn in Hcount, Hsent.
  eexists. split; [reflexivity|]. cbn. repeat split.
  - exact Hcount.
  - rewrite Hsent, length_map. reflexivity.
  - intros Hnil. rewrite Hnil in E. cbn in E. now inversion E.
Qed.

Lemma bulk_report_accounts_for_every_target_witness :
  (exists res,
     Bulk.handleBulkProcess (Backend.serve Sample.world) (Sample.js_error "TypeError")
       Sample.holder_secret "testnet" Bulk.reject Sample.listed
       {[ "00bb"; "00dd"; "00ee" ]} 0
     = Some res
     /\ Bulk.successCount (Bulk.report res) + length (Bulk.errors (Bulk.report res)) = 3
     /\ length (Bulk.sent res) = 3)
  /\ (exists res,
        Bulk.handleBulkProcess (Backend.serve Sample.world) (Sample.js_error "TypeError")
          Sample.holder_secret "testnet" Bulk.reject Sample.listed {[ "00ff" ]} 0
        = Some res
        /\ Bulk.report res = {| Bulk.successCount := 0; Bulk.errors := [] |}).
Proof.
  split.
  - destruct (bulk_report_accounts_for_every_target (Backend.serve Sample.world)
                (Sample.js_error "TypeError") Sample.holder_secret "testnet" Bulk.reject
                Sample.listed {[ "00bb"; "00dd"; "00ee" ]} 0)
      as (res & Hres & Hcount & Hsent & _).
    + vm_compute. discriminate.
    + exists res. repeat split; assumption.
  - destruct (bulk_report_accounts_for_every_target (Backend.serve Sample.world)
                (Sample.js_error "TypeError") Sample.holder_secret "testnet" Bulk.reject
                Sample.listed {[ "00ff" ]} 0)
      as (res & Hres & _ & _ & Hzero).
    + vm_compute. discriminate.
    + exists res. split; [assumption|]. apply Hzero. reflexivity.
Defined.

(** C6. For every batch, the loop sends one request per target, in the
    order of the targets and each to the server as the previous request
    left it, whatever the earlier outcomes; its report is the one of
    the rule: the success counter is the number of ok answers, and the
    failure list has, in order, one entry "descriptor: message" per
    target whose answer was not ok or whose request threw.  One step
    of the loop does this for one target: a success adds one to the
    counter, a failure leaves the counter and appends its entry.  In a
    batch of three targets where the second is refused, the third is
    still attempted and the report shows two successes and the one
    failure message of the second target.  [handleBulkProcess] returns
    that report for the selected balances. *)
Theorem bulk_loop_attempts_every_target {Target Req Server : Type}
    (request_of : Target -> Req) (descriptor : Target -> string)
    (fetch : Server -> Req -> Bulk.FetchOutcome * Server) (type_error : Thrown) :
  (forall targets st,
     Bulk.loop request_of descriptor fetch type_error targets st Bulk.empty_report []
     = (BulkRule.report descriptor type_error targets
          (fst (BulkRule.answers fetch st (map request_of targets))),
        snd (BulkRule.answers fetch st (map request_of targets)),
        map request_of targets)
     /\ length (fst (BulkRule.answers fetch st (map request_of targets)))
        = length targets)
  /\ (forall t st r data st',
        fetch st (request_of t) = (Bulk.Answered true data, st') ->
        Bulk.attempt request_of descriptor fetch type_error t st r
        = ({| Bulk.successCount := S (Bulk.successCount r);
              Bulk.errors := Bulk.errors r |}, st'))
  /\ (forall t st r err st',
        fetch st (request_of t) = (Bulk.Answered false (Some err), st') ->
        Bulk.attempt request_of descriptor fetch type_error t st r
        = ({| Bulk.successCount := Bulk.successCount r;
              Bulk.errors := Bulk.errors r
                             ++ [descriptor t +:+ ": " +:+ or_else err "Unknown error"] |},
           st'))
  /\ (forall t st r e st',
        fetch st (request_of t) = (Bulk.Threw e, st') ->
        Bulk.attempt request_of descriptor fetch type_error t st r
        = ({| Bulk.successCount := Bulk.successCount r;
              Bulk.errors := Bulk.errors r
                             ++ [descriptor t +:+ ": "
                                 +:+ interpolate (message_or e "Network error")] |},
           st'))
  /\ (forall t st r st',
        fetch st (request_of t) = (Bulk.Answered false None, st') ->
        Bulk.attempt request_of descriptor fetch type_error t st r
        = ({| Bulk.successCount := Bulk.successCount r;
              Bulk.errors := Bulk.errors r
                             ++ [descriptor t +:+ ": "
                                 +:+ interpolate (message_or type_error "Network error")] |},
           st'))
  /\ (forall t1 t2 t3 st st1 st2 st3 data1 data3 msg,
        fetch st (request_of t1) = (Bulk.Answered true data1, st1) ->
        fetch st1 (request_of t2) = (Bulk.Answered false (Some (Some msg)), st2) ->
        msg <> "" ->
        fetch st2 (request_of t3) = (Bulk.Answered true data3, st3) ->
        Bulk.loop request_of descriptor fetch type_error [t1; t2; t3] st Bulk.empty_report []
        = ({| Bulk.successCount := 2;
              Bulk.errors := [descriptor t2 +:+ ": " +:+ msg] |},
           st3,
           [request_of t1; request_of t2; request_of t3]))
  /\ (forall (serve : Server -> Bulk.ClaimableRequest -> Bulk.FetchOutcome * Server)
             secretKey network mode balances selected st,
        size selected <> 0 ->
        Bulk.handleBulkProcess serve type_error secretKey network mode balances selected st
        = Some
            {| Bulk.report :=
                 BulkRule.report Bulk.balance_descriptor type_error
                   (Bulk.selectedBalances balances selected)
                   (fst (BulkRule.answers serve st
                           (map (Bulk.balance_request secretKey network mode)
                              (Bulk.selectedBalances balances selected))));
               Bulk.sent :=
                 map (Bulk.balance_request secretKey network mode)
                   (Bulk.selectedBalances balances selected);
               Bulk.successMessage :=
                 Bulk.summary mode
                   (BulkRule.report Bulk.balance_descriptor type_error
                      (Bulk.selectedBalances balances selected)
                      (fst (BulkRule.answers serve st
                              (map (Bulk.balance_request secretKey network mode)
                                 (Bulk.selectedBalances balances selected)))));
               Bulk.selected_after := ∅;
               Bulk.server_after :=
                 snd (BulkRule.answers serve st
                        (map (Bulk.balance_request secretKey network mode)
                           (Bulk.selectedBalances balances selected))) |}).
Proof.
  repeat apply conj.
  - intros targets st. split.
    + rewrite loop_follows_rule. reflexivity.
    + rewrite <- (length_map request_of targets).
      generalize (map request_of targets) as reqs. intros reqs. revert st.
      induction reqs as [|q rest IH]; intros st; cbn; [reflexivity|].
      destruct (fetch st q) as [o st1]. specialize (IH st1).
      destruct (BulkRule.answers fetch st1 rest) as [os st2]. cbn in *. now rewrite IH.
  - intros t st r data st' Hfetch. unfold Bulk.attempt. rewrite Hfetch. reflexivity.
  - intros t st r err st' Hfetch. unfold Bulk.attempt. rewrite Hfetch. reflexivity.
  - intros t st r e st' Hfetch. unfold Bulk.attempt. rewrite Hfetch. reflexivity.
  - intros t st r st' Hfetch. unfold Bulk.attempt. rewrite Hfetch. reflexivity.
  - intros t1 t2 t3 st st1 st2 st3 data1 data3 msg H1 H2 Hmsg H3.
    cbn. unfold Bulk.attempt. rewrite H1. cbn. rewrite H2. cbn. rewrite H3. cbn.
    unfold Bulk.failure_entry. destruct msg; [congruence | reflexivity].
  - intros serve secretKey network mode balances selected st Hsel.
    unfold Bulk.handleBulkProcess.
    rewrite bool_decide_eq_false_2 by exact Hsel.
    rewrite loop_follows_rule. reflexivity.
Qed.

Lemma bulk_loop_attempts_every_target_witness :
  Bulk.handleBulkProcess (Backend.serve Sample.world) (Sample.js_error "TypeError")
    Sample.holder_secret "testnet" Bulk.reject Sample.listed
    {[ "00bb"; "00dd"; "00ee" ]} 0
  = Some {| Bulk.report :=
              {| Bulk.successCount := 2;
                 Bulk.errors := ["3.0000000 EUR: Transaction failed: "
                                   +:+ Sample.stringify Sample.result_codes] |};
            Bulk.sent :=
              map (Bulk.balance_request Sample.holder_secret "testnet" Bulk.reject)
                (Bulk.selectedBalances Sample.listed {[ "00bb"; "00dd"; "00ee" ]});
            Bulk.successMessage := Some "Rejected 2 balances (1 failed)";
            Bulk.selected_after := ∅;
            Bulk.server_after := 3 |}.
Proof.
  pose proof (bulk_loop_attempts_every_target
                (Bulk.balance_request Sample.holder_secret "testnet" Bulk.reject)
                Bulk.balance_descriptor (Backend.serve Sample.world)
                (Sample.js_error "TypeError")) as (_ & _ & _ & _ & _ & Hscenario & _).
  unfold Bulk.handleBulkProcess.
  change (bool_decide (size ({[ "00bb"; "00dd"; "00ee" ]} : gset string) = 0)) with false.
  change (Bulk.selectedBalances Sample.listed {[ "00bb"; "00dd"; "00ee" ]})
    with [ {| Bulk.id := "00bb"; Bulk.amount := "5.0000000"; Bulk.asset := "USD";
              Bulk.sponsor := Some "GSPONSOR" |};
           {| Bulk.id := "00dd"; Bulk.amount := "3.0000000"; Bulk.asset := "EUR";
              Bulk.sponsor := Some "GSPONSOR" |};
           {| Bulk.id := "00ee"; Bulk.amount := "9.0000000"; Bulk.asset := "JPY";
              Bulk.sponsor := Some "GSPONSOR" |} ].
  rewrite (Hscenario _ _ _ 0 1 2 3 (Some None) (Some None)
             ("Transaction failed: " +:+ Sample.stringify Sample.result_codes));
    [reflexivity | reflexivity | reflexivity | discriminate | reflexivity].
Defined.

(** * Further properties of the handlers *)

(** ** Where a submitted transaction comes from *)

Lemma claim_submission_is_bound (env : Env) (req : Claim.Request)
    (server : string) (tx : SignedTransaction) :
  In (CallSubmit server tx) (snd (Claim.POST env req)) ->
  bound_to_network env (interpolate (Claim.secretKey req))
    (interpolate (Claim.network req)) server tx.
Proof.
  unfold bound_to_network. route_cases; intros Hin;
    repeat (destruct Hin as [Hin|Hin]; [try discriminate; simplify_eq|]);
    try contradiction; eexists; cbn; repeat split; eauto.
Qed.

Lemma reject_submission_is_bound (env : Env) (req : Reject.Request)
    (server : string) (tx : SignedTransaction) :
  In (CallSubmit server tx) (snd (Reject.POST env req)) ->
  bound_to_network env (interpolate (Reject.secretKey req))
    (interpolate (Reject.network req)) server tx.
Proof.
  unfold bound_to_network. route_cases; intros Hin;
    repeat (destruct Hin as [Hin|Hin]; [try discriminate; simplify_eq|]);
    try contradiction; eexists; cbn; repeat split; eauto.
Qed.

Lemma remove_submission_is_bound (env : Env) (req : Remove.Request)
    (server : string) (tx : SignedTransaction) :
  In (CallSubmit server tx) (snd (Remove.POST env req)) ->
  bound_to_network env (interpolate (Remove.secretKey req))
    (interpolate (Remove.network req)) server tx.
Proof.
  unfold bound_to_network. route_cases; intros Hin;
    repeat (destruct Hin as [Hin|Hin]; [try discriminate; simplify_eq|]);
    try contradiction; eexists; cbn; repeat split; eauto.
Qed.

(** X1. A transaction submitted by Claim Balance, Reject Balance or
    Remove Trustline goes to the Horizon server of the requested
    network, carries that network's passphrase and the SDK's base fee,
    is signed by the keypair derived from the request's secret, and has
    as source the account Horizon returned for that keypair. *)
Theorem submitted_transaction_is_bound_to_network (env : Env) :
  (forall req server tx,
     In (CallSubmit server tx) (snd (Claim.POST env req)) ->
     bound_to_network env (interpolate (Claim.secretKey req))
       (interpolate (Claim.network req)) server tx)
  /\ (forall req server tx,
        In (CallSubmit server tx) (snd (Reject.POST env req)) ->
        bound_to_network env (interpolate (Reject.secretKey req))
          (interpolate (Reject.network req)) server tx)
  /\ (forall req server tx,
        In (CallSubmit server tx) (snd (Remove.POST env req)) ->
        bound_to_network env (interpolate (Remove.secretKey req))
          (interpolate (Remove.network req)) server tx).
Proof.
  repeat split.
  - apply claim_submission_is_bound.
  - apply reject_submission_is_bound.
  - apply remove_submission_is_bound.
Qed.

Lemma submitted_transaction_is_bound_to_network_witness :
  exists server tx,
    In (CallSubmit server tx) (snd (Reject.POST Sample.accepting Sample.reject_usd))
    /\ bound_to_network Sample.accepting Sample.holder_secret "public" server tx.
Proof.
  eexists. eexists. split.
  - cbn. right. right. left. reflexivity.
  - apply (proj1 (proj2 (submitted_transaction_is_bound_to_network Sample.accepting))
             Sample.reject_usd).
    cbn. right. right. left. reflexivity.
Defined.

(** ** Send Payment: the server, and where the handler ends *)

(** X2. Send Payment does not validate the network: every Horizon call
    of a request goes to the test server when the network field is
    exactly "testnet" and to the public server for any other value,
    missing or unknown ones included. *)
Theorem send_network_falls_back_to_public (env : Env) (req : Send.Request) :
  (Send.network req = Some "testnet" ->
   Forall (fun c => call_server c = "https://horizon-testnet.stellar.org")
     (snd (Send.POST env req)))
  /\ (Send.network req <> Some "testnet" ->
      Forall (fun c => call_server c = "https://horizon.stellar.org")
        (snd (Send.POST env req))).
Proof.
  assert (Hall : Forall (fun c => call_server c = Send.server_url (Send.network req))
                   (snd (Send.POST env req))).
  { route_cases; repeat constructor. }
  split; intros Hnet.
  - rewrite Hnet in Hall. exact Hall.
  - replace (Send.server_url (Send.network req)) with "https://horizon.stellar.org"
      in Hall; [exact Hall|].
    unfold Send.server_url, Remove.same.
    destruct (Send.network req) as [n|]; [|reflexivity].
    destruct (String.eqb n "testnet") eqn:E; [|reflexivity].
    apply String.eqb_eq in E. congruence.
Qed.

(** X6. Send Payment never reaches the ledger.  Whatever the request
    and whatever the SDK and Horizon answer, it submits no transaction
    and never answers 200, and its only Horizon call is the load of the
    account of the request's secret, on the server of X2.  A request
    that passes the guards, with a secret the SDK accepts, an account
    Horizon returns and an asset the SDK accepts, ends in the handler's
    [catch] with the TypeError that [sourceAccount.operations.payment]
    raises. *)
Theorem send_never_reaches_the_ledger (env : Env) (req : Send.Request) :
  submissions (snd (Send.POST env req)) = []
  /\ status (fst (Send.POST env req)) <> 200%Z
  /\ (forall c, In c (snd (Send.POST env req)) ->
        exists keypair,
          Keypair_fromSecret env (interpolate (Send.secretKey req)) = inr keypair
          /\ c = CallLoadAccount (Send.server_url (Send.network req)) (publicKey keypair))
  /\ (forall keypair account,
        truthy (Send.secretKey req) = true ->
        truthy (Send.recipientAddress req) = true ->
        truthy (Send.assetCode req) = true ->
        truthy (Send.amount req) = true ->
        Keypair_fromSecret env (interpolate (Send.secretKey req)) = inr keypair ->
        loadAccount env (Send.server_url (Send.network req)) (publicKey keypair)
        = inr account ->
        (Send.assetCode req = Some "XLM"
         \/ (truthy (Send.assetIssuer req) = true
             /\ new_Asset env (interpolate (Send.assetCode req))
                  (interpolate (Send.assetIssuer req)) = None)) ->
        Send.POST env req
        = (Send.send_catch (TypeError_not_a_function env),
           [CallLoadAccount (Send.server_url (Send.network req)) (publicKey keypair)])).
Proof.
  assert (Hcatch : forall e, status (Send.send_catch e) <> 200%Z).
  { intros e. unfold Send.send_catch. repeat case_match; discriminate. }
  split; [|split; [|split]].
  - route_cases; reflexivity.
  - route_cases; try discriminate; apply Hcatch.
  - route_cases; intros c Hin; in_log Hin; eexists; split; reflexivity.
  - intros keypair account Hs Hr Hc Ha Hkey Hload Hasset.
    route_unfold. rewrite Hs, Hr, Hc, Ha. cbn. rewrite Hkey. cbn. rewrite Hload. cbn.
    destruct Hasset as [Hxlm | [Hi Hnew]].
    + rewrite Hxlm. reflexivity.
    + rewrite Hi, Hnew. cbn.
      destruct (String.eqb (interpolate (Send.assetCode req)) "XLM"); reflexivity.
Qed.

(** ** Success is an accepted submission *)

Lemma claim_success_iff_accepted (env : Env) (req : Claim.Request) :
  status (fst (Claim.POST env req)) = 200%Z
  <-> exists server tx hash,
        In (CallSubmit server tx) (snd (Claim.POST env req))
        /\ submitTransaction env server tx = inr hash
        /\ body (fst (Claim.POST env req)) = BDone "Balance claimed" hash.
Proof.
  route_cases; (split; [intros Hst; try discriminate Hst
                       | intros (server & tx & hash & Hin & Hsub & _); in_log Hin;
                         try congruence]).
  all: try (unfold outer_catch, submit_catch in *; cbn in *; try discriminate;
            congruence).
  eexists _, _, _. split; [right; right; left; reflexivity|]. split; eauto.
Qed.

Lemma reject_success_iff_accepted (env : Env) (req : Reject.Request) :
  status (fst (Reject.POST env req)) = 200%Z
  <-> exists server tx hash,
        In (CallSubmit server tx) (snd (Reject.POST env req))
        /\ submitTransaction env server tx = inr hash
        /\ body (fst (Reject.POST env req)) = BDone "Balance rejected" hash.
Proof.
  route_cases; (split; [intros Hst; try discriminate Hst
                       | intros (server & tx & hash & Hin & Hsub & _); in_log Hin;
                         try congruence]).
  all: try (unfold outer_catch, submit_catch in *; cbn in *; try discriminate;
            congruence).
  eexists _, _, _. split; [right; right; left; reflexivity|]. split; eauto.
Qed.

Lemma remove_success_iff_accepted (env : Env) (req : Remove.Request) :
  status (fst (Remove.POST env req)) = 200%Z
  <-> exists server tx hash,
        In (CallSubmit server tx) (snd (Remove.POST env req))
        /\ submitTransaction env server tx = inr hash
        /\ body (fst (Remove.POST env req)) = BDone "Trustline removed" hash.
Proof.
  route_cases; (split; [intros Hst; try discriminate Hst
                       | intros (server & tx & hash & Hin & Hsub & _); in_log Hin;
                         try congruence]).
  all: try (unfold outer_catch, Remove.remove_catch in *; cbn in *; try discriminate;
            congruence).
  eexists _, _, _. split; [right; left; reflexivity|]. split; eauto.
Qed.

Lemma send_success_iff_accepted (env : Env) (req : Send.Request) :
  status (fst (Send.POST env req)) = 200%Z
  <-> exists server tx hash,
        In (CallSubmit server tx) (snd (Send.POST env req))
        /\ submitTransaction env server tx = inr hash
        /\ exists text, body (fst (Send.POST env req)) = BSent hash text.
Proof.
  assert (Hcatch : forall e, status (Send.send_catch e) <> 200%Z).
  { intros e. unfold Send.send_catch. repeat case_match; discriminate. }
  route_cases; (split; [intros Hst; try discriminate Hst; try (now apply Hcatch in Hst)
                       | intros (server & tx & hash & Hin & Hsub & _); in_log Hin;
                         try congruence]).
  all: eexists _, _, _; (split; [right; left; reflexivity|]); split; eauto.
Qed.

(** X3. Each of the four transaction handlers answers 200 exactly when
    it submitted a transaction and Horizon accepted it; the hash in the
    answer is the one Horizon returned. *)
Theorem success_means_accepted_submission (env : Env) :
  (forall req,
     status (fst (Claim.POST env req)) = 200%Z
     <-> exists server tx hash,
           In (CallSubmit server tx) (snd (Claim.POST env req))
           /\ submitTransaction env server tx = inr hash
           /\ body (fst (Claim.POST env req)) = BDone "Balance claimed" hash)
  /\ (forall req,
        status (fst (Reject.POST env req)) = 200%Z
        <-> exists server tx hash,
              In (CallSubmit server tx) (snd (Reject.POST env req))
              /\ submitTransaction env server tx = inr hash
              /\ body (fst (Reject.POST env req)) = BDone "Balance rejected" hash)
  /\ (forall req,
        status (fst (Remove.POST env req)) = 200%Z
        <-> exists server tx hash,
              In (CallSubmit server tx) (snd (Remove.POST env req))
              /\ submitTransaction env server tx = inr hash
              /\ body (fst (Remove.POST env req)) = BDone "Trustline removed" hash)
  /\ (forall req,
        status (fst (Send.POST env req)) = 200%Z
        <-> exists server tx hash,
              In (CallSubmit server tx) (snd (Send.POST env req))
              /\ submitTransaction env server tx = inr hash
              /\ exists text, body (fst (Send.POST env req)) = BSent hash text).
Proof.
  repeat apply conj.
  - apply claim_success_iff_accepted.
  - apply reject_success_iff_accepted.
  - apply remove_success_iff_accepted.
  - apply send_success_iff_accepted.
Qed.

(** ** Requests that never reach Horizon *)

(** Whatever the validation block answers is the answer of the five
    handlers, given with an empty log. *)
Lemma prechecked_handlers_answer (env : Env) (secret network id code issuer : string)
    (r0 : Response) :
  secret <> "" -> network <> "" -> id <> "" -> code <> "" -> issuer <> "" ->
  (forall log, resolve_credential env secret network log = (Route.Return r0, log)) ->
  Forall (fun r => r = (r0, [])) (prechecked_handlers env secret network id code issuer).
Proof.
  intros Hs Hn Hi Hc Hiss Hstop.
  unfold prechecked_handlers.
  repeat constructor;
    unfold Claim.POST, Claim.handler, Reject.POST, Reject.handler,
      Remove.POST, Remove.handler, ListBalances.POST, ListBalances.handler,
      LoadTrustlines.POST, LoadTrustlines.handler,
      Route.run, mbind, route_bind, Route.bind, Route.return_if; cbn [
      Claim.secretKey Claim.network Claim.balanceId
      Reject.secretKey Reject.network Reject.balanceId
      Remove.secretKey Remove.network Remove.assetCode Remove.assetIssuer
      ListBalances.secretKey ListBalances.network
      LoadTrustlines.secretKey LoadTrustlines.network];
    rewrite ?truthy_nonempty by assumption; cbn [negb orb Route.ret];
    cbn [interpolate]; rewrite Hstop; reflexivity.
Qed.

(** X4. In the five handlers that validate the network, a request whose
    network is neither "public" nor "testnet" is answered 400 without
    any Horizon call; when its fields are present and its secret has
    the right format the answer is "Invalid network". *)
Theorem unknown_network_is_refused_offline
    (env : Env) (secret network id code issuer : string) :
  known_network network = None ->
  Forall (fun r => status (fst r) = 400%Z /\ snd r = [])
    (prechecked_handlers env secret network id code issuer)
  /\ (secret <> "" -> network <> "" -> id <> "" -> code <> "" -> issuer <> "" ->
      bad_secret_format secret = false ->
      Forall (fun r => r = (json_error "Invalid network" 400, []))
        (prechecked_handlers env secret network id code issuer)).
Proof.
  intros Hnet. split.
  - unfold prechecked_handlers.
    repeat constructor; route_cases; congruence.
  - intros Hs Hn Hi Hc Hiss Hfmt.
    apply prechecked_handlers_answer; try assumption.
    intros log. route_unfold. rewrite Hfmt, Hnet. reflexivity.
Qed.

Lemma unknown_network_is_refused_offline_witness :
  Forall (fun r => r = (json_error "Invalid network" 400, []))
    (prechecked_handlers Sample.accepting Sample.holder_secret "mainnet"
       "00bb" "USD" "GISSUER").
Proof.
  apply (proj2 (unknown_network_is_refused_offline Sample.accepting Sample.holder_secret
                  "mainnet" "00bb" "USD" "GISSUER" eq_refl));
    try discriminate; reflexivity.
Defined.

(** ** Failed loads *)

(** X5. When Horizon cannot return the account, Claim Balance, Reject
    Balance and Remove Trustline stop there: the answer is 400 with
    "Account error: " followed by the message, and the account load is
    the only Horizon call.  When the account loads and the claimable
    balance record cannot be returned, Claim and Reject answer 400 with
    "Balance error: " followed by the message and submit nothing. *)
Theorem failed_loads_are_fatal (env : Env) :
  (forall req server pk e,
     In (CallLoadAccount server pk) (snd (Claim.POST env req)) ->
     loadAccount env server pk = inl e ->
     Claim.POST env req
     = ({| status := 400;
           body := BError (Some ("Account error: "
                     +:+ interpolate (message_or e "Failed to load account"))) |},
        [CallLoadAccount server pk]))
  /\ (forall req server pk e,
        In (CallLoadAccount server pk) (snd (Reject.POST env req)) ->
        loadAccount env server pk = inl e ->
        Reject.POST env req
        = ({| status := 400;
              body := BError (Some ("Account error: "
                        +:+ interpolate (message_or e "Failed to load account"))) |},
           [CallLoadAccount server pk]))
  /\ (forall req server pk e,
        In (CallLoadAccount server pk) (snd (Remove.POST env req)) ->
        loadAccount env server pk = inl e ->
        Remove.POST env req
        = ({| status := 400;
              body := BError (Some ("Account error: "
                        +:+ interpolate (message_or e "Failed to load account"))) |},
           [CallLoadAccount server pk]))
  /\ (forall req server id e,
        In (CallClaimableBalance server id) (snd (Claim.POST env req)) ->
        claimableBalance env server id = inl e ->
        fst (Claim.POST env req)
        = {| status := 400;
             body := BError (Some ("Balance error: "
                       +:+ interpolate (message_or e "Failed to load balance"))) |}
        /\ submissions (snd (Claim.POST env req)) = [])
  /\ (forall req server id e,
        In (CallClaimableBalance server id) (snd (Reject.POST env req)) ->
        claimableBalance env server id = inl e ->
        fst (Reject.POST env req)
        = {| status := 400;
             body := BError (Some ("Balance error: "
                       +:+ interpolate (message_or e "Failed to load balance"))) |}
        /\ submissions (snd (Reject.POST env req)) = []).
Proof.
  repeat apply conj; intros req server x e; route_cases; intros Hin Hfail;
    in_log Hin; try congruence; split; congruence.
Qed.

(** ** Reject Balance: what is paid back *)

(** X7. Every transaction Reject Balance submits claims the requested
    balance and then pays the amount of the record Horizon returned for
    that id to the sponsor of that record, in the asset whose trustline
    the same transaction closes (and opens first, unless native):
    amount and destination never come from the request. *)
Theorem reject_returns_recorded_amount_to_sponsor
    (env : Env) (req : Reject.Request) (tx : SignedTransaction) :
  In tx (submissions (snd (Reject.POST env req))) ->
  exists server record asset opening,
    claimableBalance env server (interpolate (Reject.balanceId req)) = inr record
    /\ operations (draft tx)
       = opening
         ++ [claimClaimableBalance (interpolate (Reject.balanceId req));
             payment (cb_sponsor record) asset (cb_amount record);
             changeTrust asset "0"]
    /\ (opening = [] /\ asset = Native \/ opening = [changeTrust asset MAX_LIMIT]).
Proof.
  intros Hin.
  destruct (reject_submits_composed_plan env req tx Hin) as (server & record & Hrec & Hplan).
  exists server, record. unfold Reject.compose in Hplan.
  destruct (parse_asset env (cb_asset record)) as [e|[a|]]; [discriminate| |];
    injection Hplan as <-.
  - exists a, [changeTrust a MAX_LIMIT]. cbn. auto.
  - exists Native, []. cbn. auto.
Qed.

(** ** Listing handlers *)

(** X8. When Load Trustlines answers with a list, the list is, in
    order, the balance lines of the loaded account whose type is not
    "native" (none when the account has no balances), and the account
    load was the only Horizon call. *)
Theorem load_trustlines_lists_non_native_lines
    (env : Env) (req : LoadTrustlines.Request) (listed : list Trustline) :
  body (fst (LoadTrustlines.POST env req)) = BTrustlines listed ->
  exists server pk account,
    snd (LoadTrustlines.POST env req) = [CallLoadAccount server pk]
    /\ loadAccount env server pk = inr account
    /\ listed
       = map LoadTrustlines.to_trustline
           (List.filter (fun b => negb (String.eqb (asset_type b) "native"))
              (default [] (balances account)))
    /\ status (fst (LoadTrustlines.POST env req)) = 200%Z.
Proof.
  route_cases; intros Hbody; try discriminate Hbody;
    injection Hbody as <-; eexists _, _, _; repeat split; eauto;
    match goal with H : balances _ = _ |- _ => rewrite H end; reflexivity.
Qed.


(** X10. When List Claimable Balances answers with a list, the secret
    of the request gave a keypair and its network is a known one; the
    handler made one Horizon query, on the server of that network, for
    the public key of that keypair, with limit 200; and the ids and
    amounts listed are, in order, those of the returned records that
    name that public key among their claimants. *)
Theorem listing_keeps_claimable_records_only
    (env : Env) (req : ListBalances.Request) (listed : list BalanceEntry) :
  body (fst (ListBalances.POST env req)) = BBalances listed ->
  exists keypair net page,
    Keypair_fromSecret env (interpolate (ListBalances.secretKey req)) = inr keypair
    /\ known_network (interpolate (ListBalances.network req)) = Some net
    /\ snd (ListBalances.POST env req)
       = [CallClaimableBalances (SERVERS net) (publicKey keypair) 200]
    /\ claimableBalancesForClaimant env (SERVERS net) (publicKey keypair) 200 = inr page
    /\ map be_id listed
       = map cb_id (List.filter (fun r => ListBalances.canClaim r (publicKey keypair))
                      (ListBalances.records_of page))
    /\ map be_amount listed
       = map cb_amount (List.filter (fun r => ListBalances.canClaim r (publicKey keypair))
                          (ListBalances.records_of page))
    /\ status (fst (ListBalances.POST env req)) = 200%Z.
Proof.
  assert (Hids : forall pk rs,
             map be_id (omap (ListBalances.entry pk) rs)
             = map cb_id (List.filter (fun r => ListBalances.canClaim r pk) rs)
             /\ map be_amount (omap (ListBalances.entry pk) rs)
                = map cb_amount (List.filter (fun r => ListBalances.canClaim r pk) rs)).
  { intros pk rs. induction rs as [|r rs [IH1 IH2]]; [split; reflexivity|].
    cbn. destruct (ListBalances.canClaim r pk) eqn:Hcan.
    - assert (exists e, ListBalances.entry pk r = Some e
                        /\ be_id e = cb_id r /\ be_amount e = cb_amount r)
        as (e & -> & Hi & Ha).
      { unfold ListBalances.entry. rewrite Hcan. cbn.
        destruct (asset_parts (cb_asset r)) as [[c i]|]; eexists; repeat split. }
      cbn. rewrite Hi, Ha, IH1, IH2. split; reflexivity.
    - assert (ListBalances.entry pk r = None) as ->
        by (unfold ListBalances.entry; rewrite Hcan; reflexivity).
      split; assumption. }
  route_cases; intros Hbody; try discriminate Hbody;
    injection Hbody as <-; eexists _, _, _; repeat split; eauto; apply Hids.
Qed.

(** X11. The asset a listed balance shows is the asset Claim Balance
    establishes trust for: either the claim composes the single claim
    step and the entry shows "XLM" / "native", or it opens the trustline
    of exactly the code and issuer shown (or the SDK refuses that
    asset). *)
Theorem listed_asset_is_claimed_asset
    (env : Env) (pk id : string) (record : ClaimableBalanceRecord) (e : BalanceEntry) :
  ListBalances.entry pk record = Some e ->
  (Claim.compose env id record = inr [claimClaimableBalance id]
   /\ be_asset e = "XLM" /\ be_assetIssuer e = "native")
  \/ Claim.compose env id record
     = inr [changeTrust (Credit (be_asset e) (be_assetIssuer e)) MAX_LIMIT;
            claimClaimableBalance id]
  \/ (exists err, new_Asset env (be_asset e) (be_assetIssuer e) = Some err
                  /\ Claim.compose env id record = inl err).
Proof.
  unfold ListBalances.entry, Claim.compose, parse_asset.
  destruct (ListBalances.canClaim record pk); cbn; [|discriminate].
  destruct (asset_parts (cb_asset record)) as [[c i]|]; intros [= <-]; cbn.
  - destruct (new_Asset env c i) as [err|] eqn:E; eauto.
  - auto.
Qed.

(** * Further properties of the parsing and of the components *)

(** ** Round trip of [split] *)

Lemma split_parts_have_no_sep (sep : ascii) (s : string) :
  Forall (fun p => has_char sep p = false) (split sep s).
Proof.
  induction s as [|c rest IH]; cbn; [repeat constructor|].
  destruct (Ascii.eqb c sep) eqn:E; [constructor; [reflexivity | exact IH]|].
  destruct (split sep rest) as [|p ps]; [repeat constructor; cbn; now rewrite E|].
  inversion IH; subst. constructor; [cbn; rewrite E; assumption | assumption].
Qed.

Lemma split_join (sep : ascii) (s : string) :
  String.concat (String sep EmptyString) (split sep s) = s.
Proof.
  induction s as [|c rest IH]; [reflexivity|]. cbn [split].
  destruct (Ascii.eqb c sep) eqn:E.
  - apply Ascii.eqb_eq in E. subst c.
    pose proof (split_not_nil sep rest) as Hne.
    destruct (split sep rest) as [|p ps]; [congruence|].
    cbn in *. now rewrite IH.
  - destruct (split sep rest) as [|p ps] eqn:Hs; [now destruct (split_not_nil sep rest)|].
    destruct ps; cbn in *; now rewrite <- IH.
Qed.

(** Joining the parts of [split] with the separator gives the string
    back; no part contains the separator; and there is one part more
    than there are separators in the string. *)
Theorem split_join_round_trip (sep : ascii) (s : string) :
  String.concat (String sep EmptyString) (split sep s) = s
  /\ Forall (fun p => has_char sep p = false) (split sep s)
  /\ length (split sep s) = S (count_char sep s).
Proof.
  split; [apply split_join|]. split; [apply split_parts_have_no_sep | apply split_length].
Qed.

(** X13. An asset identifier is treated as non-native exactly when it
    is written CODE:ISSUER with a single colon: [asset_parts] returns
    [(code, issuer)] if and only if the identifier is [code], a colon,
    [issuer], and neither part contains a colon. *)
Theorem asset_parts_iff_one_colon (a code issuer : string) :
  asset_parts (Some a) = Some (code, issuer)
  <-> a = code +:+ ":" +:+ issuer
      /\ has_char ":" code = false /\ has_char ":" issuer = false.
Proof.
  split.
  - unfold asset_parts. intros H.
    destruct (truthy (Some a) && negb (String.eqb a "native")); [|discriminate].
    pose proof (split_join ":" a) as Hjoin.
    pose proof (split_parts_have_no_sep ":" a) as Hparts.
    destruct (split ":" a) as [|p [|q [|r l]]]; try discriminate.
    injection H as -> ->. cbn in Hjoin.
    apply Forall_cons_1 in Hparts as [Hp Hrest].
    apply Forall_cons_1 in Hrest as [Hq _].
    repeat split; [now rewrite <- Hjoin | assumption | assumption].
  - intros (-> & Hc & Hi). now apply asset_parts_pair.
Qed.

Lemma asset_parts_iff_one_colon_witness :
  asset_parts (Some "USD:GISSUER") = Some ("USD", "GISSUER").
Proof.
  apply (proj2 (asset_parts_iff_one_colon "USD:GISSUER" "USD" "GISSUER")).
  repeat split.
Defined.

(** ** Selection *)

(** X14. Toggling an id twice gives the selection back; toggling it
    once changes the membership of that id and of no other. *)
Theorem toggle_select_twice (id : string) (selected : gset string) :
  Selection.toggleSelect id (Selection.toggleSelect id selected) = selected
  /\ (id ∈ Selection.toggleSelect id selected <-> id ∉ selected)
  /\ (forall other, other <> id ->
        (other ∈ Selection.toggleSelect id selected <-> other ∈ selected)).
Proof.
  unfold Selection.toggleSelect.
  destruct (decide (id ∈ selected)) as [Hin|Hout].
  - rewrite (bool_decide_eq_true_2 _ Hin).
    rewrite bool_decide_eq_false_2 by (rewrite elem_of_difference, elem_of_singleton; tauto).
    repeat split.
    + apply set_eq. intros x.
      rewrite elem_of_union, elem_of_difference, elem_of_singleton.
      destruct (decide (x = id)) as [->|]; tauto.
    + rewrite elem_of_difference, elem_of_singleton. tauto.
    + rewrite elem_of_difference, elem_of_singleton. tauto.
    + rewrite elem_of_difference, elem_of_singleton. tauto.
    + rewrite elem_of_difference, elem_of_singleton. tauto.
  - rewrite (bool_decide_eq_false_2 _ Hout).
    rewrite bool_decide_eq_true_2 by (rewrite elem_of_union, elem_of_singleton; tauto).
    repeat split.
    + apply set_eq. intros x.
      rewrite elem_of_difference, elem_of_union, elem_of_singleton.
      destruct (decide (x = id)) as [->|]; tauto.
    + tauto.
    + rewrite elem_of_union, elem_of_singleton. tauto.
    + rewrite elem_of_union, elem_of_singleton. tauto.
    + rewrite elem_of_union, elem_of_singleton. tauto.
Qed.

Lemma filter_of_all_keys {A : Type} (key : A -> string) (l : list A) :
  List.filter (fun x => bool_decide (key x ∈ (list_to_set (map key l) : gset string))) l = l.
Proof.
  assert (H : forall (s : gset string) l',
             (forall x, In x l' -> key x ∈ s) ->
             List.filter (fun x => bool_decide (key x ∈ s)) l' = l').
  { intros s l'. induction l' as [|x l' IH]; intros Hall; [reflexivity|]. cbn.
    rewrite bool_decide_eq_true_2 by (apply Hall; now left).
    f_equal. apply IH. intros y Hy. apply Hall. now right. }
  apply H. intros x Hx. apply elem_of_list_to_set, list_elem_of_In, in_map, Hx.
Qed.

(** X15. "Select all" on a list that is not already counted as fully
    selected selects every listed balance, so that a bulk action then
    goes through the whole list; with distinct ids a second "select all"
    clears the selection. *)
Theorem select_all_covers_the_list (balances : list Bulk.Balance) (selected : gset string) :
  size selected <> length balances ->
  Bulk.selectedBalances balances (Selection.toggleSelectAll Bulk.id balances selected)
  = balances
  /\ (NoDup (map Bulk.id balances) ->
      Selection.toggleSelectAll Bulk.id balances
        (Selection.toggleSelectAll Bulk.id balances selected) = ∅).
Proof.
  intros Hsize. unfold Selection.toggleSelectAll at 1 3.
  rewrite bool_decide_eq_false_2 by exact Hsize. split.
  - apply (filter_of_all_keys Bulk.id).
  - intros Hnodup. unfold Selection.toggleSelectAll.
    rewrite bool_decide_eq_true_2; [reflexivity|].
    rewrite size_list_to_set by exact Hnodup. now rewrite length_map.
Qed.

Lemma select_all_covers_the_list_witness :
  Bulk.selectedBalances Sample.listed
    (Selection.toggleSelectAll Bulk.id Sample.listed {[ "00aa" ]})
  = Sample.listed
  /\ Selection.toggleSelectAll Bulk.id Sample.listed
       (Selection.toggleSelectAll Bulk.id Sample.listed {[ "00aa" ]}) = ∅.
Proof.
  destruct (select_all_covers_the_list Sample.listed {[ "00aa" ]}) as [Hall Hclear].
  - vm_compute. discriminate.
  - split; [exact Hall|]. apply Hclear.
    repeat (constructor; [cbn; rewrite ?elem_of_cons, elem_of_nil; intuition discriminate|]).
    constructor.
Defined.

(** The report of [handleBulkProcess], with its message. *)
Lemma bulk_report_accounts_for_every_target_aux {Server : Type}
    (fetch : Server -> Bulk.ClaimableRequest -> Bulk.FetchOutcome * Server)
    (type_error : Thrown) (secretKey network : string) (mode : Bulk.Mode)
    (balances : list Bulk.Balance) (selected : gset string) (st : Server) :
  size selected <> 0 ->
  exists res,
    Bulk.handleBulkProcess fetch type_error secretKey network mode balances selected st
    = Some res
    /\ Bulk.successCount (Bulk.report res) + length (Bulk.errors (Bulk.report res))
       = length (Bulk.selectedBalances balances selected)
    /\ Bulk.successMessage res = Bulk.summary mode (Bulk.report res).
Proof.
  intros Hsel. unfold Bulk.handleBulkProcess.
  rewrite bool_decide_eq_false_2 by exact Hsel.
  pose proof (loop_accounts (Bulk.balance_request secretKey network mode)
                Bulk.balance_descriptor fetch type_error
                (Bulk.selectedBalances balances selected) st Bulk.empty_report [])
    as Hloop.
  destruct (Bulk.loop _ _ _ _ (Bulk.selectedBalances balances selected) st _ _)
    as [[r st'] reqs].
  destruct Hloop as [Hcount _]. eexists. split; [reflexivity|]. cbn. auto.
Qed.

(** ** Reloading the list *)

(** X16. A reload that fails empties the list but keeps the selection
    and the message, so a bulk action started next finds no target: it
    sends no request, reports nothing and sets no message.  A reload
    that succeeds clears the selection, so a bulk action started next
    returns at once. *)
Theorem reload_then_bulk {Server : Type}
    (fetch : Server -> Bulk.ClaimableRequest -> Bulk.FetchOutcome * Server)
    (type_error : Thrown) (secretKey network : string) (mode : Bulk.Mode)
    (answer : Reload.Answer Bulk.Balance) (ui : Reload.Ui) (st : Server) :
  ((forall l, answer <> Reload.Loaded l) ->
   size (Reload.selected ui) <> 0 ->
   Reload.items (Reload.hook (Reload.handleLoad answer ui)) = []
   /\ Reload.selected (Reload.handleLoad answer ui) = Reload.selected ui
   /\ Reload.successMessage (Reload.handleLoad answer ui) = Reload.successMessage ui
   /\ Bulk.handleBulkProcess fetch type_error secretKey network mode
        (Reload.items (Reload.hook (Reload.handleLoad answer ui)))
        (Reload.selected (Reload.handleLoad answer ui)) st
      = Some {| Bulk.report := Bulk.empty_report;
                Bulk.sent := [];
                Bulk.successMessage := None;
                Bulk.selected_after := ∅;
                Bulk.server_after := st |})
  /\ (forall l, answer = Reload.Loaded l ->
        Reload.items (Reload.hook (Reload.handleLoad answer ui)) = l
        /\ Reload.selected (Reload.handleLoad answer ui) = ∅
        /\ Bulk.handleBulkProcess fetch type_error secretKey network mode
             (Reload.items (Reload.hook (Reload.handleLoad answer ui)))
             (Reload.selected (Reload.handleLoad answer ui)) st
           = None).
Proof.
  split.
  - intros Hfail Hsel.
    assert (Hui : Reload.handleLoad answer ui
                  = {| Reload.hook := fst (Reload.loadBalances answer (Reload.hook ui));
                       Reload.successMessage := Reload.successMessage ui;
                       Reload.selected := Reload.selected ui |}
                  /\ Reload.items (fst (Reload.loadBalances answer (Reload.hook ui))) = []).
    { unfold Reload.handleLoad. destruct answer as [e|err|l]; cbn; auto.
      now destruct (Hfail l). }
    destruct Hui as [-> Hitems]. cbn. rewrite Hitems. repeat split.
    unfold Bulk.handleBulkProcess. rewrite bool_decide_eq_false_2 by exact Hsel.
    reflexivity.
  - intros l ->. cbn. repeat split.
Qed.

Lemma reload_then_bulk_witness :
  Bulk.handleBulkProcess (Backend.serve Sample.world) (Sample.js_error "TypeError")
    Sample.holder_secret "testnet" Bulk.claim
    (Reload.items (Reload.hook
       (Reload.handleLoad (Reload.Refused (Some "Fetch error: timeout"))
          {| Reload.hook := {| Reload.items := Sample.listed; Reload.loading := false;
                               Reload.error := Some "" |};
             Reload.successMessage := "";
             Reload.selected := {[ "00bb" ]} |})))
    (Reload.selected
       (Reload.handleLoad (Reload.Refused (Some "Fetch error: timeout"))
          {| Reload.hook := {| Reload.items := Sample.listed; Reload.loading := false;
                               Reload.error := Some "" |};
             Reload.successMessage := "";
             Reload.selected := {[ "00bb" ]} |}))
    0
  = Some {| Bulk.report := Bulk.empty_report;
            Bulk.sent := [];
            Bulk.successMessage := None;
            Bulk.selected_after := ∅;
            Bulk.server_after := 0 |}.
Proof.
  apply (proj1 (reload_then_bulk (Backend.serve Sample.world) (Sample.js_error "TypeError")
                  Sample.holder_secret "testnet" Bulk.claim
                  (Reload.Refused (Some "Fetch error: timeout"))
                  {| Reload.hook := {| Reload.items := Sample.listed;
                                       Reload.loading := false;
                                       Reload.error := Some "" |};
                     Reload.successMessage := "";
                     Reload.selected := {[ "00bb" ]} |} 0)).
  - intros l. discriminate.
  - vm_compute. discriminate.
Defined.

(** ** The message of a bulk run *)

(** X17. The loop of [handleBulkProcess] is followed by a message
    exactly when at least one target was attempted; when every target
    failed that message quotes the first failure only. *)
Theorem bulk_message_tells_whether_anything_ran {Server : Type}
    (fetch : Server -> Bulk.ClaimableRequest -> Bulk.FetchOutcome * Server)
    (type_error : Thrown) (secretKey network : string) (mode : Bulk.Mode)
    (balances : list Bulk.Balance) (selected : gset string) (st : Server) :
  size selected <> 0 ->
  exists res,
    Bulk.handleBulkProcess fetch type_error secretKey network mode balances selected st
    = Some res
    /\ (Bulk.successMessage res = None <-> Bulk.selectedBalances balances selected = [])
    /\ (Bulk.successCount (Bulk.report res) = 0 ->
        forall first others,
          Bulk.errors (Bulk.report res) = first :: others ->
          Bulk.successMessage res
          = Some ("Failed to " +:+ Bulk.action_of mode +:+ " balances: " +:+ first)).
Proof.
  intros Hsel.
  destruct (bulk_report_accounts_for_every_target_aux fetch type_error secretKey network
              mode balances selected st Hsel) as (res & Hres & Hcount & Hmsg).
  exists res. split; [exact Hres|]. rewrite Hmsg. split.
  - unfold Bulk.summary. split.
    + intros Hnone.
      destruct (Bulk.successCount (Bulk.report res)) as [|n] eqn:E; [|discriminate].
      destruct (Bulk.errors (Bulk.report res)) as [|e es]; [|discriminate].
      cbn in Hcount. destruct (Bulk.selectedBalances balances selected); [reflexivity|].
      discriminate.
    + intros Hnil. rewrite Hnil in Hcount. cbn in Hcount.
      destruct (Bulk.successCount (Bulk.report res)); [|lia].
      destruct (Bulk.errors (Bulk.report res)); [reflexivity|cbn in Hcount; lia].
  - intros Hzero first others Herr. unfold Bulk.summary. rewrite Hzero, Herr. reflexivity.
Qed.

(** X12. [handleBulkProcess] ends with a reload of the list.  When the
    reload succeeds, the message left on screen is the reload's
    "Loaded n claimable balances": the summary of the bulk run has been
    overwritten.  When the reload fails, the summary of the run stays,
    the list is empty.  In both cases the selection is empty. *)
Theorem bulk_summary_survives_only_a_failed_reload {Server : Type}
    (fetch : Server -> Bulk.ClaimableRequest -> Bulk.FetchOutcome * Server)
    (type_error : Thrown) (secretKey network : string) (mode : Bulk.Mode)
    (answer : Reload.Answer Bulk.Balance) (ui : Reload.Ui) (st : Server) :
  size (Reload.selected ui) <> 0 ->
  exists ui' res,
    Reload.handleBulkProcess_then_reload fetch type_error secretKey network mode answer ui st
    = (ui', Some res)
    /\ Reload.selected ui' = ∅
    /\ (forall l, answer = Reload.Loaded l ->
          Reload.items (Reload.hook ui') = l
          /\ Reload.successMessage ui'
             = "Loaded " +:+ pretty (length l) +:+ " claimable balances")
    /\ ((forall l, answer <> Reload.Loaded l) ->
        Reload.items (Reload.hook ui') = []
        /\ Reload.successMessage ui'
           = default (Reload.successMessage ui) (Bulk.summary mode (Bulk.report res))).
Proof.
  intros Hsel.
  destruct (bulk_report_accounts_for_every_target_aux fetch type_error secretKey network
              mode (Reload.items (Reload.hook ui)) (Reload.selected ui) st Hsel)
    as (res & Hres & _ & Hmsg).
  assert (Hafter : Bulk.selected_after res = ∅).
  { unfold Bulk.handleBulkProcess in Hres.
    rewrite bool_decide_eq_false_2 in Hres by exact Hsel.
    destruct (Bulk.loop _ _ _ _ _ st _ _) as [[r st'] reqs].
    injection Hres as <-. reflexivity. }
  unfold Reload.handleBulkProcess_then_reload. rewrite Hres.
  eexists _, res. split; [reflexivity|].
  unfold Reload.handleLoad. rewrite Hafter, Hmsg.
  destruct answer as [e|err|l]; cbn; (split; [reflexivity|]); split.
  all: try (intros l' Heq; discriminate Heq).
  all: try (intros _; split; reflexivity).
  - intros l' [= <-]. split; reflexivity.
  - intros H. now destruct (H l).
Qed.

Lemma bulk_summary_survives_only_a_failed_reload_witness :
  exists ui' res,
    Reload.handleBulkProcess_then_reload (Backend.serve Sample.world)
      (Sample.js_error "TypeError") Sample.holder_secret "testnet" Bulk.claim
      (Reload.Loaded [])
      {| Reload.hook := {| Reload.items := Sample.listed; Reload.loading := false;
                           Reload.error := Some "" |};
         Reload.successMessage := "";
         Reload.selected := {[ "00bb" ]} |} 0
    = (ui', Some res)
    /\ Bulk.successCount (Bulk.report res) = 1
    /\ Reload.successMessage ui' = "Loaded 0 claimable balances".
Proof.
  destruct (bulk_summary_survives_only_a_failed_reload (Backend.serve Sample.world)
              (Sample.js_error "TypeError") Sample.holder_secret "testnet" Bulk.claim
              (Reload.Loaded [])
              {| Reload.hook := {| Reload.items := Sample.listed; Reload.loading := false;
                                   Reload.error := Some "" |};
                 Reload.successMessage := "";
                 Reload.selected := {[ "00bb" ]} |} 0)
    as (ui' & res & Hrun & _ & Hloaded & _).
  - vm_compute. discriminate.
  - exists ui', res. split; [exact Hrun|]. split.
    + vm_compute in Hrun. injection Hrun as _ <-. reflexivity.
    + apply (Hloaded [] eq_refl).
Defined.

(** ** The unified list: one action per balance *)



(** ** The trustline manager *)

Lemma split_first_part (sep : ascii) (a b : string) :
  has_char sep a = false ->
  split sep (a +:+ String sep b) = a :: split sep b.
Proof.
  intros Ha. induction a as [|c rest IH]; simpl in *.
  - now rewrite Ascii.eqb_refl.
  - apply orb_false_iff in Ha as [Hc Hrest]. now rewrite Hc, (IH Hrest).
Qed.

Lemma append_cancel (a b c : string) : a +:+ b = a +:+ c -> b = c.
Proof. induction a as [|x a IH]; cbn; [auto|]. intros [= H]. auto. Qed.

Lemma key_injective (t1 t2 : Manager.Line) :
  has_char ":" (Manager.assetCode t1) = false ->
  has_char ":" (Manager.assetCode t2) = false ->
  Manager.key t1 = Manager.key t2 ->
  Manager.assetCode t1 = Manager.assetCode t2
  /\ Manager.assetIssuer t1 = Manager.assetIssuer t2.
Proof.
  unfold Manager.key. intros H1 H2 Hkey.
  assert (Hsplit : split ":" (Manager.assetCode t1 +:+ ":" +:+ Manager.assetIssuer t1)
                   = split ":" (Manager.assetCode t2 +:+ ":" +:+ Manager.assetIssuer t2))
    by now rewrite Hkey.
  change (":" +:+ Manager.assetIssuer t1) with (String ":" (Manager.assetIssuer t1)) in Hsplit.
  change (":" +:+ Manager.assetIssuer t2) with (String ":" (Manager.assetIssuer t2)) in Hsplit.
  rewrite !split_first_part in Hsplit by assumption.
  injection Hsplit as Hcode _. split; [exact Hcode|].
  rewrite Hcode in Hkey. apply append_cancel in Hkey. now injection Hkey.
Qed.

(** X19. For trustlines whose asset codes contain no colon, the
    selection key determines code and issuer: selecting one trustline
    selects that trustline, and selects no line of another asset. *)
Theorem trustline_key_selects_one_asset (trustlines : list Manager.Line) (t : Manager.Line) :
  Forall (fun l => has_char ":" (Manager.assetCode l) = false) trustlines ->
  In t trustlines ->
  In t (Manager.selectedTrustlines trustlines {[ Manager.key t ]})
  /\ forall other,
       In other (Manager.selectedTrustlines trustlines {[ Manager.key t ]}) ->
       Manager.assetCode other = Manager.assetCode t
       /\ Manager.assetIssuer other = Manager.assetIssuer t.
Proof.
  intros Hcodes Hin. unfold Manager.selectedTrustlines. split.
  - apply filter_In. split; [exact Hin|].
    apply bool_decide_eq_true_2, elem_of_singleton. reflexivity.
  - intros other Hother. apply filter_In in Hother as [Hin' Hkey].
    apply bool_decide_eq_true_1, elem_of_singleton in Hkey.
    rewrite Forall_forall in Hcodes.
    apply key_injective; [apply Hcodes | apply Hcodes | exact Hkey];
      now apply list_elem_of_In.
Qed.


(** ** Connecting an account *)

Lemma starts_with_S_not_blank (s : string) :
  startsWith "S" s = true -> Page.is_blank s = false.
Proof.
  destruct s as [|c rest]; [discriminate|]. cbn [startsWith Page.is_blank].
  intros H. apply Ascii.eqb_eq in H. subst c. reflexivity.
Qed.

Lemma connect_iff_format (secret : string) (st : Page.Auth) :
  Page.isAuthenticated st = false ->
  (Page.isAuthenticated (Page.handleAuthenticate secret st) = true
   <-> bad_secret_format secret = false).
Proof.
  intros Hst. unfold Page.handleAuthenticate.
  destruct (bad_secret_format secret) eqn:Hbad.
  - destruct (Page.is_blank secret); cbn; rewrite ?Hst; split; discriminate.
  - assert (HS : startsWith "S" secret = true).
    { unfold bad_secret_format in Hbad. apply orb_false_iff in Hbad as [H _].
      now apply negb_false_iff in H. }
    rewrite (starts_with_S_not_blank secret HS). cbn. split; reflexivity.
Qed.

(** X21. From the disconnected state, [handleAuthenticate] connects
    exactly the secrets that begin with 'S' and have 56 characters, the
    test the handlers run first; a connected state carries no error and
    a refused secret leaves an error text. *)
Theorem login_accepts_the_well_formed_secrets (secret : string) (st : Page.Auth) :
  Page.isAuthenticated st = false ->
  (Page.isAuthenticated (Page.handleAuthenticate secret st) = true
   <-> startsWith "S" secret = true /\ String.length secret = 56)
  /\ (Page.isAuthenticated (Page.handleAuthenticate secret st) = true
      <-> bad_secret_format secret = false)
  /\ (Page.isAuthenticated (Page.handleAuthenticate secret st) = true ->
      Page.error (Page.handleAuthenticate secret st) = "")
  /\ (Page.isAuthenticated (Page.handleAuthenticate secret st) = false ->
      Page.error (Page.handleAuthenticate secret st) <> "").
Proof.
  intros Hst.
  assert (Hfmt : bad_secret_format secret = false
                 <-> startsWith "S" secret = true /\ String.length secret = 56).
  { unfold bad_secret_format. rewrite orb_false_iff, !negb_false_iff, Nat.eqb_eq.
    reflexivity. }
  pose proof (connect_iff_format secret st Hst) as Hconn.
  split; [now rewrite Hconn|]. split; [exact Hconn|].
  unfold Page.handleAuthenticate in *.
  destruct (Page.is_blank secret); [cbn; rewrite Hst; split; discriminate|].
  destruct (bad_secret_format secret); cbn; split; try discriminate; reflexivity.
Qed.

Lemma login_accepts_the_well_formed_secrets_witness :
  Page.isAuthenticated
    (Page.handleAuthenticate Sample.garbage_secret
       {| Page.isAuthenticated := false; Page.loading := false; Page.error := "" |})
  = true.
Proof.
  apply (proj1 (login_accepts_the_well_formed_secrets Sample.garbage_secret
                  {| Page.isAuthenticated := false; Page.loading := false;
                     Page.error := "" |} eq_refl)).
  split; reflexivity.
Defined.

(** X22. Once a secret has been connected, a handler that answers
    "Invalid secret key format" without any Horizon call does so
    because key derivation refused the secret, never because of its
    format. *)
Theorem connected_secret_fails_only_in_key_derivation
    (env : Env) (secret network id code issuer : string) (st : Page.Auth) :
  Page.isAuthenticated st = false ->
  Page.isAuthenticated (Page.handleAuthenticate secret st) = true ->
  Exists (fun r => r = (json_error "Invalid secret key format" 400, []))
    (prechecked_handlers env secret network id code issuer) ->
  exists e, Keypair_fromSecret env secret = inl e.
Proof.
  intros Hst Hauth Hex.
  apply (connect_iff_format secret st Hst) in Hauth as Hbad. clear Hauth.
  unfold prechecked_handlers in Hex.
  repeat (apply Exists_cons in Hex as [Hex|Hex];
          [revert Hex; route_cases; intros Hex; try discriminate Hex; try congruence; eauto|]).
  now apply Exists_nil in Hex.
Qed.

Lemma connected_secret_fails_only_in_key_derivation_witness :
  exists e, Keypair_fromSecret Sample.accepting Sample.garbage_secret = inl e.
Proof.
  apply (connected_secret_fails_only_in_key_derivation Sample.accepting
           Sample.garbage_secret "testnet" "00bb" "USD" "GISSUER"
           {| Page.isAuthenticated := false; Page.loading := false; Page.error := "" |}).
  - reflexivity.
  - reflexivity.
  - left. reflexivity.
Defined.

(** ** The asset picker of the send form *)

(** X23. The value of a picker entry leads back to its asset: for a
    listed asset whose code and issuer contain no colon,
    [getSelectedAssetDetails] on its value finds an asset with the same
    code and the same issuer (absent issuers reading "native"); after
    [fetchAssets] the asset found for the preselected value is the
    first line of the account. *)
Theorem picker_value_finds_its_asset
    (assets : list SendForm.Asset) (a : SendForm.Asset) (c : string) :
  In a assets ->
  SendForm.code a = Some c ->
  has_char ":" c = false ->
  has_char ":" (or_else (SendForm.issuer a) "native") = false ->
  (exists found,
     SendForm.getSelectedAssetDetails assets (SendForm.option_key a) = Some found
     /\ SendForm.code found = Some c
     /\ or_else (SendForm.issuer found) "native" = or_else (SendForm.issuer a) "native")
  /\ (forall rest, assets = a :: rest ->
        SendForm.getSelectedAssetDetails assets (SendForm.option_key a) = Some a).
Proof.
  intros Hin Hcode Hc Hi.
  assert (Hsplit : split ":" (SendForm.option_key a)
                   = [c; or_else (SendForm.issuer a) "native"]).
  { unfold SendForm.option_key. rewrite Hcode. cbn [interpolate].
    change (":" +:+ or_else (SendForm.issuer a) "native")
      with (String ":" (or_else (SendForm.issuer a) "native")).
    now apply split_pair. }
  assert (Hself : Remove.same (SendForm.code a) c
                  && String.eqb (or_else (SendForm.issuer a) "native")
                       (or_else (SendForm.issuer a) "native") = true).
  { unfold Remove.same. now rewrite Hcode, !String.eqb_refl. }
  unfold SendForm.getSelectedAssetDetails. rewrite Hsplit. split.
  - destruct (find _ assets) as [found|] eqn:E.
    + exists found. split; [reflexivity|].
      apply find_some in E as [_ Hm]. apply andb_true_iff in Hm as [H1 H2].
      unfold Remove.same in H1. destruct (SendForm.code found) as [x|]; [|discriminate].
      apply String.eqb_eq in H1, H2. now subst.
    + apply (find_none _ _ E) in Hin. congruence.
  - intros rest ->. cbn [find]. now rewrite Hself.
Qed.

Lemma picker_value_finds_its_asset_witness :
  SendForm.getSelectedAssetDetails
    (fst (SendForm.fetchAssets (default [] (balances Sample.holder_account)) ""))
    (snd (SendForm.fetchAssets (default [] (balances Sample.holder_account)) ""))
  = Some {| SendForm.code := Some "USD"; SendForm.issuer := Some "GISSUER";
            SendForm.balance := Some "12.5000000" |}.
Proof.
  apply (proj2 (picker_value_finds_its_asset
                  (fst (SendForm.fetchAssets (default [] (balances Sample.holder_account)) ""))
                  {| SendForm.code := Some "USD"; SendForm.issuer := Some "GISSUER";
                     SendForm.balance := Some "12.5000000" |}
                  "USD" (or_introl eq_refl) eq_refl eq_refl eq_refl) _ eq_refl).
Defined.

(** ** Instances in the sample world *)

Lemma send_network_falls_back_to_public_witness :
  Forall (fun c => call_server c = "https://horizon.stellar.org")
    (snd (Send.POST Sample.accepting Scenarios.send_fake_xlm))
  /\ Forall (fun c => call_server c = "https://horizon-testnet.stellar.org")
       (snd (Send.POST Sample.accepting Sample.send_xlm)).
Proof.
  split.
  - apply (proj2 (send_network_falls_back_to_public Sample.accepting Scenarios.send_fake_xlm)).
    discriminate.
  - apply (proj1 (send_network_falls_back_to_public Sample.accepting Sample.send_xlm)).
    reflexivity.
Defined.

Lemma success_means_accepted_submission_witness :
  exists server tx hash,
    In (CallSubmit server tx) (snd (Claim.POST Sample.accepting Sample.claim_usd))
    /\ submitTransaction Sample.accepting server tx = inr hash
    /\ body (fst (Claim.POST Sample.accepting Sample.claim_usd))
       = BDone "Balance claimed" hash.
Proof.
  apply (proj1 (proj1 (success_means_accepted_submission Sample.accepting) Sample.claim_usd)).
  reflexivity.
Defined.

Lemma failed_loads_are_fatal_witness :
  Claim.POST Scenarios.horizon_down Sample.claim_usd
  = ({| status := 400; body := BError (Some "Account error: Network Error") |},
     [CallLoadAccount "https://horizon.stellar.org" "GHOLDER"])
  /\ fst (Claim.POST Sample.accepting Scenarios.claim_unknown)
     = {| status := 400; body := BError (Some "Balance error: Not Found") |}
  /\ submissions (snd (Claim.POST Sample.accepting Scenarios.claim_unknown)) = [].
Proof.
  split.
  - apply (proj1 (failed_loads_are_fatal Scenarios.horizon_down) Sample.claim_usd
             "https://horizon.stellar.org" "GHOLDER" (Sample.js_error "Network Error")).
    + left. reflexivity.
    + reflexivity.
  - apply (proj1 (proj2 (proj2 (proj2 (failed_loads_are_fatal Sample.accepting))))
             Scenarios.claim_unknown "https://horizon.stellar.org" "ffff"
             (Sample.js_error "Not Found")).
    + right. left. reflexivity.
    + reflexivity.
Defined.

Lemma send_never_reaches_the_ledger_witness :
  Send.POST Sample.accepting Sample.send_xlm
  = ({| status := 500; body := BError (Some "Failed to send asset") |},
     [CallLoadAccount "https://horizon-testnet.stellar.org" "GHOLDER"])
  /\ Send.POST Sample.accepting Scenarios.send_fake_xlm
     = ({| status := 500; body := BError (Some "Failed to send asset") |},
        [CallLoadAccount "https://horizon.stellar.org" "GHOLDER"]).
Proof.
  split.
  - apply (proj2 (proj2 (proj2
             (send_never_reaches_the_ledger Sample.accepting Sample.send_xlm)))
             Sample.holder Sample.holder_account); try reflexivity.
    left. reflexivity.
  - apply (proj2 (proj2 (proj2
             (send_never_reaches_the_ledger Sample.accepting Scenarios.send_fake_xlm)))
             Sample.holder Sample.holder_account); try reflexivity.
    left. reflexivity.
Defined.

Lemma reject_returns_recorded_amount_to_sponsor_witness :
  exists tx server record asset opening,
    In tx (submissions (snd (Reject.POST Sample.accepting Sample.reject_usd)))
    /\ claimableBalance Sample.accepting server
         (interpolate (Reject.balanceId Sample.reject_usd)) = inr record
    /\ operations (draft tx)
       = opening ++ [claimClaimableBalance (interpolate (Reject.balanceId Sample.reject_usd));
                     payment (cb_sponsor record) asset (cb_amount record);
                     changeTrust asset "0"]
    /\ (opening = [] /\ asset = Native \/ opening = [changeTrust asset MAX_LIMIT]).
Proof.
  eexists.
  edestruct (reject_returns_recorded_amount_to_sponsor Sample.accepting Sample.reject_usd)
    as (server & record & asset & opening & Hrec & Hops & Hopen).
  - left. reflexivity.
  - exists server, record, asset, opening. split; [left; reflexivity|]. auto.
Defined.

Lemma load_trustlines_lists_non_native_lines_witness :
  exists server pk account,
    snd (LoadTrustlines.POST Sample.accepting Scenarios.load_mine) = [CallLoadAccount server pk]
    /\ loadAccount Sample.accepting server pk = inr account
    /\ [ {| assetCode := Some "USD"; assetIssuer := Some "GISSUER";
            tl_balance := Some "12.5000000" |};
         {| assetCode := Some "EUR"; assetIssuer := Some "GISSUER";
            tl_balance := Some "0.0000000" |} ]
       = map LoadTrustlines.to_trustline
           (List.filter (fun b => negb (String.eqb (asset_type b) "native"))
              (default [] (balances account)))
    /\ status (fst (LoadTrustlines.POST Sample.accepting Scenarios.load_mine)) = 200%Z.
Proof.
  apply (load_trustlines_lists_non_native_lines Sample.accepting Scenarios.load_mine).
  reflexivity.
Defined.


Lemma listing_keeps_claimable_records_only_witness :
  exists listed,
    body (fst (ListBalances.POST Sample.accepting Scenarios.list_mine)) = BBalances listed
    /\ snd (ListBalances.POST Sample.accepting Scenarios.list_mine)
       = [CallClaimableBalances "https://horizon.stellar.org" "GHOLDER" 200]
    /\ map be_id listed = ["00aa"; "00bb"; "00cc"; "00dd"; "00ee"].
Proof.
  eexists.
  edestruct (listing_keeps_claimable_records_only Sample.accepting Scenarios.list_mine)
    as (keypair & net & page & Hkey & Hnet & Hlog & Hpage & Hids & _).
  - reflexivity.
  - split; [reflexivity|]. split; [|reflexivity].
    injection Hkey as <-. injection Hnet as <-. exact Hlog.
Defined.

Lemma listed_asset_is_claimed_asset_witness :
  Claim.compose Sample.accepting "00bb" (Sample.pending "00bb" "5.0000000" (Some "USD:GISSUER"))
  = inr [changeTrust (Credit "USD" "GISSUER") MAX_LIMIT; claimClaimableBalance "00bb"].
Proof.
  destruct (listed_asset_is_claimed_asset Sample.accepting "GHOLDER" "00bb"
              (Sample.pending "00bb" "5.0000000" (Some "USD:GISSUER"))
              {| be_id := "00bb"; be_amount := "5.0000000"; be_asset := "USD";
                 be_assetIssuer := "GISSUER"; be_sponsor := "GSPONSOR" |} eq_refl)
    as [(H & _) | [H | (err & H & _)]].
  - discriminate H.
  - exact H.
  - discriminate H.
Defined.

Lemma toggle_select_twice_witness :
  "00aa" ∈ Selection.toggleSelect "00bb" {[ "00aa" ]}
  /\ "00bb" ∈ Selection.toggleSelect "00bb" {[ "00aa" ]}.
Proof.
  destruct (toggle_select_twice "00bb" {[ "00aa" ]}) as (_ & Hid & Hother).
  split.
  - apply Hother; [discriminate|]. now apply elem_of_singleton.
  - apply Hid. rewrite elem_of_singleton. discriminate.
Defined.

Lemma bulk_message_tells_whether_anything_ran_witness :
  exists res,
    Bulk.handleBulkProcess (Backend.serve (fun _ => Sample.rejecting))
      (Sample.js_error "TypeError") Sample.holder_secret "testnet" Bulk.reject
      Sample.listed {[ "00bb"; "00dd" ]} 0 = Some res
    /\ Bulk.successMessage res
       = Some ("Failed to reject balances: 5.0000000 USD: Transaction failed: "
               +:+ Sample.stringify Sample.result_codes).
Proof.
  destruct (bulk_message_tells_whether_anything_ran (Backend.serve (fun _ => Sample.rejecting))
              (Sample.js_error "TypeError") Sample.holder_secret "testnet" Bulk.reject
              Sample.listed {[ "00bb"; "00dd" ]} 0)
    as (res & Hres & _ & Hfirst).
  - vm_compute. discriminate.
  - exists res. split; [exact Hres|].
    assert (Hr : Bulk.report res
                 = {| Bulk.successCount := 0;
                      Bulk.errors :=
                        [ "5.0000000 USD: Transaction failed: "
                          +:+ Sample.stringify Sample.result_codes;
                          "3.0000000 EUR: Transaction failed: "
                          +:+ Sample.stringify Sample.result_codes ] |}).
    { vm_compute in Hres. injection Hres as <-. reflexivity. }
    apply (Hfirst ltac:(rewrite Hr; reflexivity)
             ("5.0000000 USD: Transaction failed: " +:+ Sample.stringify Sample.result_codes)
             ["3.0000000 EUR: Transaction failed: " +:+ Sample.stringify Sample.result_codes]).
    rewrite Hr. reflexivity.
Defined.

Lemma trustline_key_selects_one_asset_witness :
  In {| Manager.assetCode := "EUR"; Manager.assetIssuer := "GISSUER";
        Manager.balance := "0.0000000" |}
    (Manager.selectedTrustlines Scenarios.lines
       {[ Manager.key {| Manager.assetCode := "EUR"; Manager.assetIssuer := "GISSUER";
                         Manager.balance := "0.0000000" |} ]})
  /\ Manager.assetCode {| Manager.assetCode := "EUR"; Manager.assetIssuer := "GISSUER";
                          Manager.balance := "0.0000000" |} = "EUR".
Proof.
  pose proof (trustline_key_selects_one_asset Scenarios.lines
                {| Manager.assetCode := "EUR"; Manager.assetIssuer := "GISSUER";
                   Manager.balance := "0.0000000" |}
                ltac:(repeat constructor) (or_intror (or_introl eq_refl)))
    as [Hin Hsame].
  split; [exact Hin|]. apply (Hsame _ Hin).
Defined.

